(** * wass-mcp: scan orchestration, pagination, execution logging and ledger

    A shallow embedding of the Go packages [types], [models], [tools],
    [fullscan], [storage] and [history] of tb0hdan/wass-mcp, followed by
    the properties proved about them.

    Conventions of the embedding:
    - a Go [int] / [int64] is a [Z] inside [[int_min, int_max]]; additions
      the code performs are written with [int_add], which wraps modulo 2^64;
    - a Go [string] is a [string] of bytes;
    - a Go [error] is an [option string]: [None] is [nil], [Some msg] is an
      error whose [Error()] text is [msg];
    - a slice expression that Go would reject at run time (a panic) makes
      the enclosing function return [None]. *)

From Stdlib Require Import ZArith List String Ascii Bool Lia.
From Stdlib Require Import Permutation Sorted DecimalString.
Import ListNotations.

Open Scope string_scope.
Open Scope Z_scope.

(* ================================================================== *)
(** * Part I: the program *)
(* ================================================================== *)

(** ** Go machine integers *)
Module GoInt.

Definition int_min : Z := - 2 ^ 63.
Definition int_max : Z := 2 ^ 63 - 1.

Definition in_int (z : Z) : Prop := int_min <= z <= int_max.

(** Two's-complement wrap-around of a mathematical integer into [int]. *)
Definition wrap (z : Z) : Z := (z + 2 ^ 63) mod 2 ^ 64 - 2 ^ 63.

(** Go's [a + b] on [int]. *)
Definition int_add (a b : Z) : Z := wrap (a + b).

(** [len(l)] as an [int]. *)
Definition len {A} (l : list A) : Z := Z.of_nat (List.length l).

(** [l[lo:hi]] on a slice whose capacity equals its length: Go panics
    unless [0 <= lo <= hi <= len(l)]. *)
Definition slice {A} (l : list A) (lo hi : Z) : option (list A) :=
  if (0 <=? lo) && (lo <=? hi) && (hi <=? len l)
  then Some (firstn (Z.to_nat (hi - lo)) (skipn (Z.to_nat lo) l))
  else None.

End GoInt.

(** ** The parts of Go's [strings], [strconv] and [fmt] that are exact on bytes *)
Module GoStrings.

Definition newline : ascii := "010"%char.
Definition nl : string := String newline "".

(** [strings.Split(s, "\n")]: always at least one element. *)
Fixpoint Split (s : string) : list string :=
  match s with
  | EmptyString => [""]
  | String c rest =>
      if Ascii.eqb c newline then "" :: Split rest
      else match Split rest with
           | h :: t => String c h :: t
           | [] => [String c ""]
           end
  end.

(** [strings.Join(elems, sep)]. *)
Fixpoint Join (elems : list string) (sep : string) : string :=
  match elems with
  | [] => ""
  | [e] => e
  | e :: rest => e ++ sep ++ Join rest sep
  end.

(** [strings.Repeat(s, n)]. *)
Fixpoint Repeat (s : string) (n : nat) : string :=
  match n with
  | O => ""
  | S n' => s ++ Repeat s n'
  end.

(** [strconv.Itoa] and the [%d] verb. *)
Definition Itoa (z : Z) : string := NilZero.string_of_int (Z.to_int z).

(** [strings.IndexByte(s, c) >= 0]. *)
Fixpoint HasByte (c : ascii) (s : string) : bool :=
  match s with
  | EmptyString => false
  | String d rest => Ascii.eqb c d || HasByte c rest
  end.

(** [strings.Contains(s, sub)] as a proposition. *)
Definition Contains (s sub : string) : Prop :=
  exists pre post, s = pre ++ sub ++ post.

End GoStrings.

(** ** package types *)
Module types.

(** Modelled from the spec: the declarations of [MaxDefaultLines] and
    [MaxAllowedLines] (pkg/types/constants.go) are not among the sources;
    the values are the ones [TestConstants] asserts and section 4.2 of
    the specification names. *)
Definition MaxDefaultLines : Z := 200.
Definition MaxAllowedLines : Z := 100000.

End types.

(** ** Library functions kept abstract

    The functions below belong to Go's standard library or to the
    validator package; their results depend on Unicode tables, on
    floating point or on the calendar.  The program is embedded over any
    implementation of them; [asciiLib] further down is one that computes. *)
Record GoLib := {
  (** [strings.ToUpper] *)
  strings_ToUpper : string -> string;
  (** [strings.TrimSpace] *)
  strings_TrimSpace : string -> string;
  (** the [%-10s] verb: the argument padded on the right to ten runes *)
  fmt_pad10 : string -> string;
  (** the [%.2f] verb applied to [d.Seconds()], for a duration of [d]
      nanoseconds *)
  fmt_seconds : Z -> string;
  (** [t.UTC().Format(time.RFC1123)], for a time [t] in seconds *)
  time_RFC1123 : Z -> string;
  (** the validator tag [hostname|ip] *)
  is_hostname_or_ip : string -> bool
}.

(** A Go [error] value: [None] is [nil]. *)
Definition error := option string.

(** ** package models *)
Module models.

(** [ToolExecution].  [CreatedAt] counts from the zero [time.Time], so
    that [0] is the zero value; [DeletedAt] is gorm's nullable
    soft-deletion time. *)
Record ToolExecution := {
  ID : Z;
  CreatedAt : Z;
  DeletedAt : option Z;
  SessionID : string;
  ToolName : string;
  InputJSON : string;
  OutputJSON : string;
  ErrorMessage : string;
  DurationMs : Z;
  Success : bool
}.

End models.

(** ** package tools *)
Module tools.

Record ScanParams := { Host : string; Port : Z; Vhost : string }.

Record ScanResult := { Output : string; Error : error }.

(** The [Scanner] interface.  [IsAvailable] is the answer the scanner
    gives when asked; [Scan] is its scan operation (the context argument
    is not modelled). *)
Record Scanner := {
  Name : string;
  IsAvailable : bool;
  Scan : ScanParams -> ScanResult
}.

(** [mcp.CallToolResult] with text content only. *)
Record CallToolResult := { Content : list string }.

(** [mcp.CallToolRequest]: the session, when there is one, and its id. *)
Record CallToolRequest := { Session : option string }.

Section WrapToolHandler.
Context {In Out : Type}.
(** [json.Marshal] on the input and on the result; a failure to
    serialise yields the empty text (the code drops the error). *)
Variable json_Marshal_In : In -> string.
Variable json_Marshal_Result : CallToolResult -> string.

Definition Handler : Type :=
  CallToolRequest -> In -> option CallToolResult * Out * error.

(** [WrapToolHandler store toolName handler] applied to a request.
    [startTime] and [endTime] are the two readings of the clock, in
    nanoseconds.  The fourth component is the record handed to the
    goroutine that calls [store.CreateToolExecution]. *)
Definition WrapToolHandler (toolName : string) (handler : Handler)
    (startTime endTime : Z) (req : CallToolRequest) (input : In)
  : option CallToolResult * Out * error * models.ToolExecution :=
  let sessionID := match Session req with
                   | Some id => id
                   | None => ""
                   end in
  let inputJSON := json_Marshal_In input in
  let '(result, output, err) := handler req input in
  let duration := endTime - startTime in
  let exec := {|
    models.ID := 0;
    models.CreatedAt := 0;
    models.DeletedAt := None;
    models.SessionID := sessionID;
    models.ToolName := toolName;
    models.InputJSON := inputJSON;
    models.OutputJSON :=
      match err, result with
      | None, Some r => json_Marshal_Result r
      | _, _ => ""
      end;
    models.ErrorMessage :=
      match err with
      | Some e => e
      | None => ""
      end;
    models.DurationMs := Z.quot duration 1000000;
    models.Success := match err with None => true | Some _ => false end
  |} in
  (result, output, err, exec).

End WrapToolHandler.

End tools.

(** ** package server *)
Module server.

(** The server as far as registration is concerned: the names of the
    tools added with [mcp.AddTool]. *)
Record Server := { registered : list string }.

Definition AddTool (srv : Server) (name : string) : Server :=
  {| registered := (registered srv ++ [name])%list |}.

End server.

(** ** package fullscan *)
Module fullscan.
Import GoInt GoStrings.

Definition reportLineWidth : nat := 78.
Definition toolName : string := "full_scan".
Definition defaultHost : string := "localhost".
Definition defaultPort : Z := 80.

Record Input := {
  Host : string;
  Port : Z;
  Vhost : string;
  MaxLines : Z;
  Offset : Z
}.

(** [scannerResult]; [Duration] is in nanoseconds. *)
Record scannerResult := {
  Name : string;
  Output : string;
  Duration : Z;
  Error : error
}.

Record Tool := { scanners : list tools.Scanner }.

(** *** Input validation

    [validator.Struct] on [Input], read off the struct tags: the fields
    in order, and for each field the first tag that fails. *)
Definition fieldError (field tag : string) : string :=
  "Key: 'Input." ++ field ++ "' Error:Field validation for '" ++ field
  ++ "' failed on the '" ++ tag ++ "' tag".

Definition checkMinMax (field : string) (v lo : Z) (hi : option Z)
  : list string :=
  if v <? lo then [fieldError field "min"]
  else match hi with
       | Some h => if h <? v then [fieldError field "max"] else []
       | None => []
       end.

Definition fieldErrors (L : GoLib) (input : Input) : list string :=
  ((if String.eqb (Host input) "" then []
    else if is_hostname_or_ip L (Host input) then []
    else [fieldError "Host" "hostname|ip"])
   ++ checkMinMax "Port" (Port input) 0 (Some 65535)
   ++ checkMinMax "MaxLines" (MaxLines input) 0 (Some 100000)
   ++ checkMinMax "Offset" (Offset input) 0 None)%list.

Definition validator_Struct (L : GoLib) (input : Input) : error :=
  match fieldErrors L input with
  | [] => None
  | errs => Some (Join errs nl)
  end.

(** *** Register *)
Definition Register (t : Tool) (srv : server.Server)
  : Tool * server.Server * error :=
  let availableScanners := filter tools.IsAvailable (scanners t) in
  if len availableScanners =? 0 then
    (t, srv, Some "no scanner binaries available")
  else
    ({| scanners := availableScanners |}, server.AddTool srv toolName, None).

(** *** runScannersParallel

    One goroutine per scanner; each calls [Scan] and then sends its
    record on [resultsChan]; the caller appends what it receives until
    the channel is closed and drained.  The interleaving is not fixed by
    the code, so the run is a step relation. *)
Inductive task :=
| Launched (s : tools.Scanner)
| Scanned (s : tools.Scanner) (r : tools.ScanResult).

Record runState := {
  tasks : list task;
  resultsChan : list scannerResult;
  results : list scannerResult;
  scanCalls : list (string * tools.ScanParams)
}.

Definition initial (t : Tool) : runState :=
  {| tasks := map Launched (scanners t);
     resultsChan := [];
     results := [];
     scanCalls := [] |}.

(** Every goroutine has returned, so the channel is closed, and the
    [range] loop has drained it. *)
Definition terminal (st : runState) : Prop :=
  tasks st = [] /\ resultsChan st = [].

Inductive step (params : tools.ScanParams) : runState -> runState -> Prop :=
| step_scan : forall before s after chan res calls,
    step params
      {| tasks := (before ++ Launched s :: after)%list; resultsChan := chan;
         results := res; scanCalls := calls |}
      {| tasks := (before ++ Scanned s (tools.Scan s params) :: after)%list;
         resultsChan := chan; results := res;
         scanCalls := (calls ++ [(tools.Name s, params)])%list |}
| step_send : forall before s r after chan res calls duration,
    in_int duration ->
    step params
      {| tasks := (before ++ Scanned s r :: after)%list; resultsChan := chan;
         results := res; scanCalls := calls |}
      {| tasks := (before ++ after)%list;
         resultsChan := (chan ++ [{| Name := tools.Name s;
                                     Output := tools.Output r;
                                     Duration := duration;
                                     Error := tools.Error r |}])%list;
         results := res; scanCalls := calls |}
| step_collect : forall tk r chan res calls,
    step params
      {| tasks := tk; resultsChan := r :: chan; results := res;
         scanCalls := calls |}
      {| tasks := tk; resultsChan := chan; results := (res ++ [r])%list;
         scanCalls := calls |}.

Inductive steps (params : tools.ScanParams) : runState -> runState -> Prop :=
| steps_refl : forall st, steps params st st
| steps_cons : forall st1 st2 st3,
    step params st1 st2 -> steps params st2 st3 -> steps params st1 st3.

(** [runScannersParallel] returns the final state's [results]. *)
Definition runScannersParallel (t : Tool) (params : tools.ScanParams)
    (final : runState) : Prop :=
  steps params (initial t) final /\ terminal final.

(** One particular interleaving, as a function: the goroutines finish in
    the order of the scanner list, each with the duration given. *)
Definition runInOrder (t : Tool) (params : tools.ScanParams)
    (durations : list Z) : list scannerResult :=
  map (fun sd : tools.Scanner * Z =>
         let r := tools.Scan (fst sd) params in
         {| Name := tools.Name (fst sd); Output := tools.Output r;
            Duration := snd sd; Error := tools.Error r |})
      (combine (scanners t) durations).

(** *** mergeResults *)
Definition separator : string := "=" ++ Repeat "=" reportLineWidth.
Definition dashLine : string := "-" ++ Repeat "-" reportLineWidth.

Definition statusOf (r : scannerResult) : string :=
  match Error r with
  | Some _ => "FAILED"
  | None => "SUCCESS"
  end.

(** One line of the summary: [fmt.Sprintf("  %-10s: %s (%.2fs)\n", ...)]. *)
Definition summaryLine (L : GoLib) (r : scannerResult) : string :=
  "  " ++ fmt_pad10 L (Name r) ++ ": " ++ statusOf r ++ " ("
  ++ fmt_seconds L (Duration r) ++ "s)" ++ nl.

(** The state of the summary loop. *)
Record summaryAcc := {
  text : string;
  totalDuration : Z;
  successCount : Z;
  failCount : Z
}.

Definition summaryStep (L : GoLib) (acc : summaryAcc) (r : scannerResult)
  : summaryAcc :=
  {| text := text acc ++ summaryLine L r;
     totalDuration := int_add (totalDuration acc) (Duration r);
     successCount := match Error r with
                     | Some _ => successCount acc
                     | None => int_add (successCount acc) 1
                     end;
     failCount := match Error r with
                  | Some _ => int_add (failCount acc) 1
                  | None => failCount acc
                  end |}.

(** The body of the second loop: the section of one scanner. *)
Definition resultSection (L : GoLib) (r : scannerResult) : string :=
  separator ++ nl
  ++ "                    " ++ strings_ToUpper L (Name r) ++ " RESULTS" ++ nl
  ++ separator ++ nl ++ nl
  ++ match Error r with
     | Some e =>
         "ERROR: " ++ e ++ nl ++ nl
         ++ (if String.eqb (Output r) "" then ""
             else "Output:" ++ nl ++ Output r ++ nl)
     | None => strings_TrimSpace L (Output r) ++ nl
     end
  ++ nl.

(** The header down to the target line, and what follows the date line. *)
Definition reportHeader (targetURL : string) : string :=
  separator ++ nl
  ++ "                    FULL SECURITY SCAN REPORT" ++ nl
  ++ separator ++ nl
  ++ "Target: " ++ targetURL ++ nl.

Definition reportBody (L : GoLib) (results : list scannerResult) : string :=
  let acc := fold_left (summaryStep L) results
               {| text := ""; totalDuration := 0;
                  successCount := 0; failCount := 0 |} in
  separator ++ nl ++ nl
  ++ "SCAN SUMMARY" ++ nl
  ++ dashLine ++ nl
  ++ text acc
  ++ nl ++ "Total scanners: " ++ Itoa (len results)
  ++ " | Successful: " ++ Itoa (successCount acc)
  ++ " | Failed: " ++ Itoa (failCount acc) ++ nl
  ++ "Total scan time: " ++ fmt_seconds L (totalDuration acc) ++ "s" ++ nl
  ++ nl
  ++ fold_left (fun b r => b ++ resultSection L r) results ""
  ++ separator ++ nl
  ++ "                    END OF REPORT" ++ nl
  ++ separator ++ nl.

(** [mergeResults]; [now] is the reading of [time.Now()]. *)
Definition mergeResults (L : GoLib) (now : Z) (targetURL : string)
    (results : list scannerResult) : string :=
  reportHeader targetURL
  ++ "Date: " ++ time_RFC1123 L now ++ nl
  ++ reportBody L results.

(** *** applyPagination *)

(** Lines 296-314 of [applyPagination]: the defaulting of [maxLines], the
    split into lines and the choice of the window.  Returns the window,
    the [truncated] flag and [totalLines]. *)
Definition paginationWindow (output : string) (maxLines offset : Z)
  : option (list string * bool * Z) :=
  let maxLines := if maxLines =? 0 then types.MaxDefaultLines else maxLines in
  let lines := Split output in
  let totalLines := len lines in
  if (0 <? offset) && (offset <? totalLines) then
    if int_add offset maxLines <? totalLines then
      option_map (fun w => (w, true, totalLines))
                 (slice lines offset (int_add offset maxLines))
    else
      option_map (fun w => (w, false, totalLines))
                 (slice lines offset totalLines)
  else if maxLines <? totalLines then
    option_map (fun w => (w, true, totalLines)) (slice lines 0 maxLines)
  else Some (lines, false, totalLines).

(** The text of the banner, without its two trailing newlines. *)
Definition bannerLine (first last total : Z) : string :=
  "[Showing lines " ++ Itoa first ++ "-" ++ Itoa last ++ " of " ++ Itoa total
  ++ " lines. Use offset parameter to view more.]".

(** [fmt.Sprintf("[Showing lines %d-%d of %d lines. Use offset parameter
    to view more.]\n\n", first, last, total)]. *)
Definition banner (first last total : Z) : string :=
  bannerLine first last total ++ nl ++ nl.

(** [applyPagination]. *)
Definition applyPagination (output : string) (maxLines offset : Z)
  : option string :=
  match paginationWindow output maxLines offset with
  | None => None
  | Some (lines, truncated, totalLines) =>
      let paginatedOutput := Join lines nl in
      let resultText :=
        if truncated || (0 <? offset)
        then banner (int_add offset 1) (int_add offset (len lines)) totalLines
        else "" in
      Some (resultText ++ paginatedOutput)
  end.

(** *** FullScanHandler *)

(** [net.JoinHostPort]. *)
Definition JoinHostPort (host port : string) : string :=
  if HasByte ":"%char host then "[" ++ host ++ "]:" ++ port
  else host ++ ":" ++ port.

Definition hostOf (input : Input) : string :=
  if String.eqb (Host input) "" then defaultHost else Host input.

Definition portOf (input : Input) : Z :=
  if Port input =? 0 then defaultPort else Port input.

Definition targetURL (input : Input) : string :=
  "http://" ++ JoinHostPort (hostOf input) (Itoa (portOf input)).

Definition scanParams (input : Input) : tools.ScanParams :=
  {| tools.Host := hostOf input;
     tools.Port := portOf input;
     tools.Vhost := Vhost input |}.

(** What a call of the handler does: it returns a result and an error,
    or (last constructor) the goroutine panics. *)
Inductive outcome :=
| Returns (result : option tools.CallToolResult) (err : error)
| Panics.

(** What the handler does once the scanners have been run and
    [collected] is what [runScannersParallel] returned. *)
Definition report (L : GoLib) (now : Z) (input : Input)
    (collected : list scannerResult) : outcome :=
  let mergedOutput := mergeResults L now (targetURL input) collected in
  match applyPagination mergedOutput (MaxLines input) (Offset input) with
  | Some resultText =>
      Returns (Some {| tools.Content := [resultText] |}) None
  | None => Panics
  end.

Inductive FullScanHandler (L : GoLib) (t : Tool) (now : Z) (input : Input)
  : outcome -> Prop :=
| handler_invalid : forall e,
    validator_Struct L input = Some e ->
    FullScanHandler L t now input
      (Returns None (Some ("validation error: " ++ e)))
| handler_report : forall final,
    validator_Struct L input = None ->
    runScannersParallel t (scanParams input) final ->
    FullScanHandler L t now input (report L now input (results final)).

End fullscan.

(** ** package storage *)
Module storage.
Import GoInt.
Import models.

(** What the database does with [ORDER BY created_at DESC], as a
    function from the rows selected to the rows returned. *)
Definition SqlEngine : Type := list ToolExecution -> list ToolExecution.

(** [a] may come before [b] under [ORDER BY created_at DESC]. *)
Definition notOlder (a b : ToolExecution) : Prop := CreatedAt b <= CreatedAt a.

(** What SQL requires of it: the rows come back rearranged so that
    creation times never increase.  Nothing else about the order is
    fixed. *)
Definition orders_by_created_at_desc (E : SqlEngine) : Prop :=
  (forall l, Permutation l (E l)) /\
  (forall l, StronglySorted notOlder (E l)).

(** The table [tool_executions], in insertion order, and the largest
    row id ever handed out (the table's AUTOINCREMENT counter). *)
Record SQLiteStorage := {
  rows : list ToolExecution;
  sqlite_sequence : Z
}.

Definition empty : SQLiteStorage := {| rows := []; sqlite_sequence := 0 |}.

Definition ErrRecordNotFound : string := "record not found".

(** gorm adds [deleted_at IS NULL] to every query on the model. *)
Definition live (r : ToolExecution) : bool :=
  match DeletedAt r with
  | None => true
  | Some _ => false
  end.

Definition visible (s : SQLiteStorage) : list ToolExecution :=
  filter live (rows s).

Definition hasID (id : Z) (r : ToolExecution) : bool := ID r =? id.

Definition withKey (exec : ToolExecution) (id created : Z) : ToolExecution :=
  {| ID := id; CreatedAt := created; DeletedAt := DeletedAt exec;
     SessionID := SessionID exec; ToolName := ToolName exec;
     InputJSON := InputJSON exec; OutputJSON := OutputJSON exec;
     ErrorMessage := ErrorMessage exec; DurationMs := DurationMs exec;
     Success := Success exec |}.

Definition withDeletedAt (exec : ToolExecution) (d : option Z)
  : ToolExecution :=
  {| ID := ID exec; CreatedAt := CreatedAt exec; DeletedAt := d;
     SessionID := SessionID exec; ToolName := ToolName exec;
     InputJSON := InputJSON exec; OutputJSON := OutputJSON exec;
     ErrorMessage := ErrorMessage exec; DurationMs := DurationMs exec;
     Success := Success exec |}.

(** [CreateToolExecution]: gorm fills [CreatedAt] when it is zero and the
    database assigns the id when it is zero; both are written back to
    the record.  An id given by the caller must be unused. *)
Definition CreateToolExecution (s : SQLiteStorage) (now : Z)
    (exec : ToolExecution) : SQLiteStorage * ToolExecution * error :=
  let created := if CreatedAt exec =? 0 then now else CreatedAt exec in
  if ID exec =? 0 then
    if int_max <=? sqlite_sequence s then
      (s, exec, Some "database or disk is full")
    else
      let stored := withKey exec (sqlite_sequence s + 1) created in
      ({| rows := (rows s ++ [stored])%list;
          sqlite_sequence := sqlite_sequence s + 1 |}, stored, None)
  else if existsb (hasID (ID exec)) (rows s) then
    (s, exec, Some "UNIQUE constraint failed: tool_executions.id")
  else
    let stored := withKey exec (ID exec) created in
    ({| rows := (rows s ++ [stored])%list;
        sqlite_sequence := Z.max (sqlite_sequence s) (ID exec) |},
     stored, None).

(** [GetToolExecution]: [First(&exec, id)]. *)
Definition GetToolExecution (s : SQLiteStorage) (id : Z)
  : option ToolExecution * error :=
  match find (hasID id) (visible s) with
  | Some exec => (Some exec, None)
  | None => (None, Some ErrRecordNotFound)
  end.

Definition applyOffset {A} (offset : Z) (l : list A) : list A :=
  if 0 <? offset then skipn (Z.to_nat offset) l else l.

Definition applyLimit {A} (limit : Z) (l : list A) : list A :=
  if 0 <? limit then firstn (Z.to_nat limit) l else l.

(** [GetToolExecutions]. *)
Definition GetToolExecutions (E : SqlEngine) (s : SQLiteStorage)
    (limit offset : Z) : list ToolExecution * Z * error :=
  let total := len (visible s) in
  let ordered := E (visible s) in
  (applyLimit limit (applyOffset offset ordered), total, None).

(** [GetToolExecutionsBySession]. *)
Definition GetToolExecutionsBySession (E : SqlEngine) (s : SQLiteStorage)
    (sessionID : string) : list ToolExecution * error :=
  (E (filter (fun r => String.eqb (SessionID r) sessionID) (visible s)),
   None).

(** [GetToolExecutionsByTool]. *)
Definition GetToolExecutionsByTool (E : SqlEngine) (s : SQLiteStorage)
    (toolName : string) (limit : Z) : list ToolExecution * error :=
  (applyLimit limit
     (E (filter (fun r => String.eqb (ToolName r) toolName) (visible s))),
   None).

(** [DeleteToolExecution]: a soft delete, [UPDATE ... SET deleted_at = now
    WHERE id = ? AND deleted_at IS NULL]; no error when no row matches. *)
Definition DeleteToolExecution (s : SQLiteStorage) (now : Z) (id : Z)
  : SQLiteStorage * error :=
  ({| rows := map (fun r => if hasID id r && live r
                            then withDeletedAt r (Some now) else r) (rows s);
      sqlite_sequence := sqlite_sequence s |}, None).

(** [DeleteAllToolExecutions]. *)
Definition DeleteAllToolExecutions (s : SQLiteStorage) (now : Z)
  : SQLiteStorage * error :=
  ({| rows := map (fun r => if live r
                            then withDeletedAt r (Some now) else r) (rows s);
      sqlite_sequence := sqlite_sequence s |}, None).

(** The operations that change the ledger, and the ledger after a
    sequence of them. *)
Inductive operation :=
| Create (now : Z) (exec : ToolExecution)
| Delete (now : Z) (id : Z)
| DeleteAll (now : Z).

Definition perform (s : SQLiteStorage) (op : operation) : SQLiteStorage :=
  match op with
  | Create now exec => fst (fst (CreateToolExecution s now exec))
  | Delete now id => fst (DeleteToolExecution s now id)
  | DeleteAll now => fst (DeleteAllToolExecutions s now)
  end.

Definition performAll (s : SQLiteStorage) (ops : list operation)
  : SQLiteStorage :=
  fold_left perform ops s.

End storage.

(** ** package history *)
Module history.
Import GoStrings.

Record Input := {
  Action : string;
  ID : Z;
  Limit : Z;
  Offset : Z
}.

Definition fieldError (field tag : string) : string :=
  "Key: 'Input." ++ field ++ "' Error:Field validation for '" ++ field
  ++ "' failed on the '" ++ tag ++ "' tag".

Definition oneof (v : string) (allowed : list string) : bool :=
  existsb (String.eqb v) allowed.

(** [validator.Struct] on [Input], read off the struct tags. *)
Definition fieldErrors (input : Input) : list string :=
  ((if String.eqb (Action input) "" then [fieldError "Action" "required"]
    else if oneof (Action input) ["list"; "get"; "delete"; "clear"] then []
    else [fieldError "Action" "oneof"])
   ++ (if Limit input <? 0 then [fieldError "Limit" "min"]
       else if 100 <? Limit input then [fieldError "Limit" "max"] else [])
   ++ (if Offset input <? 0 then [fieldError "Offset" "min"] else []))%list.

Definition validator_Struct (input : Input) : error :=
  match fieldErrors input with
  | [] => None
  | errs => Some (Join errs nl)
  end.

Definition wrapError (prefix : string) (err : string) : error :=
  Some (prefix ++ ": " ++ err).

Definition textResult (resultText : string) : option tools.CallToolResult :=
  Some {| tools.Content := [resultText] |}.

Section Handler.
Variable E : storage.SqlEngine.
(** [json.MarshalIndent] of the listing (total, limit, offset,
    executions) and of one execution. *)
Variable marshalListing :
  Z -> Z -> Z -> list models.ToolExecution -> string.
Variable marshalExecution : option models.ToolExecution -> string.

(** [HistoryHandler]; the store is threaded through, [now] is the time
    a deletion would record. *)
Definition HistoryHandler (store : storage.SQLiteStorage) (now : Z)
    (input : Input)
  : storage.SQLiteStorage * option tools.CallToolResult * error :=
  match validator_Struct input with
  | Some e => (store, None, wrapError "validation error" e)
  | None =>
      if String.eqb (Action input) "list" then
        let limit := if Limit input =? 0 then 10 else Limit input in
        let '(executions, total, err) :=
          storage.GetToolExecutions E store limit (Offset input) in
        match err with
        | Some e => (store, None, wrapError "failed to list executions" e)
        | None =>
            (store,
             textResult
               (marshalListing total limit (Offset input) executions),
             None)
        end
      else if String.eqb (Action input) "get" then
        if ID input =? 0 then
          (store, None, Some "id is required for get action")
        else
          let '(exec, err) := storage.GetToolExecution store (ID input) in
          match err with
          | Some e => (store, None, wrapError "execution not found" e)
          | None => (store, textResult (marshalExecution exec), None)
          end
      else if String.eqb (Action input) "delete" then
        if ID input =? 0 then
          (store, None, Some "id is required for delete action")
        else
          let '(store', err) :=
            storage.DeleteToolExecution store now (ID input) in
          match err with
          | Some e =>
              (store', None, wrapError "failed to delete execution" e)
          | None =>
              (store',
               textResult ("Execution " ++ Itoa (ID input)
                           ++ " deleted successfully"),
               None)
          end
      else if String.eqb (Action input) "clear" then
        let '(store', err) := storage.DeleteAllToolExecutions store now in
        match err with
        | Some e =>
            (store', None, wrapError "failed to clear executions" e)
        | None =>
            (store', textResult "All execution history cleared", None)
        end
      else (store, textResult "", None)
  end.
End Handler.

End history.

(** ** package nikto *)
Module nikto.
Import GoInt GoStrings.

Definition binaryName : string := "nikto".
Definition defaultHost : string := "localhost".
Definition defaultPort : Z := 80.

Record Input := {
  Vhost : string;
  Host : string;
  Port : Z;
  MaxLines : Z;
  Offset : Z
}.

(** [validator.Struct] on [Input], read off the struct tags. *)
Definition fieldErrors (L : GoLib) (input : Input) : list string :=
  ((if String.eqb (Host input) "" then []
    else if is_hostname_or_ip L (Host input) then []
    else [fullscan.fieldError "Host" "hostname|ip"])
   ++ fullscan.checkMinMax "Port" (Port input) 0 (Some 65535)
   ++ fullscan.checkMinMax "MaxLines" (MaxLines input) 0 (Some 100000)
   ++ fullscan.checkMinMax "Offset" (Offset input) 0 None)%list.

Definition validator_Struct (L : GoLib) (input : Input) : error :=
  match fieldErrors L input with
  | [] => None
  | errs => Some (Join errs nl)
  end.

(** The arguments [Scan] gives to the binary. *)
Definition scanArgs (params : tools.ScanParams) : list string :=
  let host := if String.eqb (tools.Host params) "" then defaultHost
              else tools.Host params in
  let port := if tools.Port params =? 0 then defaultPort
              else tools.Port params in
  let args := ["-host"; host; "-port"; Itoa port] in
  if String.eqb (tools.Vhost params) "" then args
  else (args ++ ["-vhost"; tools.Vhost params])%list.

(** [Scan].  [CombinedOutput] is what running the binary with the given
    arguments yields: its combined output and its error. *)
Definition Scan (CombinedOutput : list string -> string * error)
    (params : tools.ScanParams) : tools.ScanResult :=
  let '(output, err) := CombinedOutput (scanArgs params) in
  match err with
  | Some e =>
      {| tools.Output := output;
         tools.Error := Some ("failed to execute nikto: " ++ e) |}
  | None => {| tools.Output := output; tools.Error := None |}
  end.

(** [Register]; [available] is the answer of [IsAvailable], that is of
    [exec.LookPath]. *)
Definition Register (available : bool) (srv : server.Server)
  : server.Server * error :=
  if negb available then (srv, Some (binaryName ++ " binary not found"))
  else (server.AddTool srv binaryName, None).

(** [formatOutput]: the window is chosen as in [applyPagination] (the
    same statements), the text around it differs. *)
Definition formatOutput (L : GoLib) (targetURL output : string)
    (maxLines offset : Z) : option string :=
  match fullscan.paginationWindow output maxLines offset with
  | None => None
  | Some (lines, truncated, totalLines) =>
      let paginatedOutput := Join lines nl in
      let resultText := "nikto output for " ++ targetURL ++ ":" ++ nl in
      let resultText :=
        if truncated || (0 <? offset)
        then resultText ++ "[Showing lines " ++ Itoa (int_add offset 1)
             ++ "-" ++ Itoa (int_add offset (len lines))
             ++ " of approximately " ++ Itoa totalLines
             ++ " lines. Use offset parameter to view more.]" ++ nl
        else resultText in
      Some (resultText ++ nl ++ strings_TrimSpace L paginatedOutput)
  end.

Definition hostOf (input : Input) : string :=
  if String.eqb (Host input) "" then defaultHost else Host input.

Definition portOf (input : Input) : Z :=
  if Port input =? 0 then defaultPort else Port input.

(** [NiktoHandler]. *)
Definition NiktoHandler (L : GoLib)
    (CombinedOutput : list string -> string * error) (input : Input)
  : fullscan.outcome :=
  match validator_Struct L input with
  | Some e => fullscan.Returns None (Some ("validation error: " ++ e))
  | None =>
      let host := hostOf input in
      let port := portOf input in
      let params := {| tools.Host := host; tools.Port := port;
                       tools.Vhost := Vhost input |} in
      let scanResult := Scan CombinedOutput params in
      match tools.Error scanResult with
      | Some e =>
          fullscan.Returns None
            (Some (e ++ nl ++ "Output: " ++ tools.Output scanResult))
      | None =>
          let targetURL :=
            "http://" ++ fullscan.JoinHostPort host (Itoa port) in
          match formatOutput L targetURL (tools.Output scanResult)
                             (MaxLines input) (Offset input) with
          | Some resultText =>
              fullscan.Returns
                (Some {| tools.Content := [resultText] |}) None
          | None => fullscan.Panics
          end
      end
  end.

(** The tool as a [tools.Scanner]. *)
Definition New (available : bool)
    (CombinedOutput : list string -> string * error) : tools.Scanner :=
  {| tools.Name := binaryName;
     tools.IsAvailable := available;
     tools.Scan := Scan CombinedOutput |}.

End nikto.

(** ** package wapiti *)
Module wapiti.
Import GoInt GoStrings.

Definition binaryName : string := "wapiti".
Definition defaultHost : string := "localhost".
Definition defaultPort : Z := 80.

Record Input := {
  Vhost : string;
  Host : string;
  Port : Z;
  MaxLines : Z;
  Offset : Z
}.

(** [validator.Struct] on [Input], read off the struct tags. *)
Definition fieldErrors (L : GoLib) (input : Input) : list string :=
  ((if String.eqb (Host input) "" then []
    else if is_hostname_or_ip L (Host input) then []
    else [fullscan.fieldError "Host" "hostname|ip"])
   ++ fullscan.checkMinMax "Port" (Port input) 0 (Some 65535)
   ++ fullscan.checkMinMax "MaxLines" (MaxLines input) 0 (Some 100000)
   ++ fullscan.checkMinMax "Offset" (Offset input) 0 None)%list.

Definition validator_Struct (L : GoLib) (input : Input) : error :=
  match fieldErrors L input with
  | [] => None
  | errs => Some (Join errs nl)
  end.

(** What [Scan] finds outside the program: the outcome of
    [os.CreateTemp] (the name of the file, or an error), of running the
    binary with given arguments, and of [os.ReadFile] on a path once the
    binary has run (the data, or an error). *)
Record Env := {
  os_CreateTemp : string + string;
  exec_CombinedOutput : list string -> string * error;
  os_ReadFile : string -> string + string
}.

(** What [Scan] does outside the program, in order. *)
Inductive effect :=
| CreateTemp (pattern : string)
| Close (path : string)
| Run (binary : string) (args : list string)
| ReadFile (path : string)
| Remove (path : string).

Definition targetOf (params : tools.ScanParams) : string :=
  let host := if String.eqb (tools.Host params) "" then defaultHost
              else tools.Host params in
  let port := if tools.Port params =? 0 then defaultPort
              else tools.Port params in
  "http://" ++ fullscan.JoinHostPort host (Itoa port).

(** The arguments [Scan] gives to the binary. *)
Definition scanArgs (params : tools.ScanParams) (reportPath : string)
  : list string :=
  let args := ["-u"; targetOf params; "-f"; "txt"; "-o"; reportPath;
               "--flush-session"] in
  if String.eqb (tools.Vhost params) "" then args
  else (args ++ ["-H"; ("Host: " ++ tools.Vhost params)%string])%list.

(** [Scan], with the trace of what it did; the deferred [os.Remove] runs
    last on every path that created the file. *)
Definition ScanTrace (env : Env) (params : tools.ScanParams)
  : tools.ScanResult * list effect :=
  match os_CreateTemp env with
  | inr e =>
      ({| tools.Output := "";
          tools.Error := Some ("failed to create temp file: " ++ e) |},
       [CreateTemp "wapiti-report-*.txt"])
  | inl reportPath =>
      let args := scanArgs params reportPath in
      let before := [CreateTemp "wapiti-report-*.txt"; Close reportPath;
                     Run binaryName args] in
      let '(cmdOutput, err) := exec_CombinedOutput env args in
      match err with
      | Some e =>
          ({| tools.Output := cmdOutput;
              tools.Error := Some ("failed to execute wapiti: " ++ e) |},
           (before ++ [Remove reportPath])%list)
      | None =>
          match os_ReadFile env reportPath with
          | inr _ =>
              ({| tools.Output := cmdOutput; tools.Error := None |},
               (before ++ [ReadFile reportPath; Remove reportPath])%list)
          | inl reportData =>
              ({| tools.Output := reportData; tools.Error := None |},
               (before ++ [ReadFile reportPath; Remove reportPath])%list)
          end
      end
  end.

Definition Scan (env : Env) (params : tools.ScanParams)
  : tools.ScanResult :=
  fst (ScanTrace env params).

(** [Register]; [available] is the answer of [IsAvailable]. *)
Definition Register (available : bool) (srv : server.Server)
  : server.Server * error :=
  if negb available then (srv, Some (binaryName ++ " binary not found"))
  else (server.AddTool srv binaryName, None).

(** [formatOutput]. *)
Definition formatOutput (L : GoLib) (targetURL output : string)
    (maxLines offset : Z) : option string :=
  match fullscan.paginationWindow output maxLines offset with
  | None => None
  | Some (lines, truncated, totalLines) =>
      let paginatedOutput := Join lines nl in
      let resultText := "wapiti report for " ++ targetURL ++ ":" ++ nl in
      let resultText :=
        if truncated || (0 <? offset)
        then resultText ++ "[Showing lines " ++ Itoa (int_add offset 1)
             ++ "-" ++ Itoa (int_add offset (len lines))
             ++ " of " ++ Itoa totalLines
             ++ " lines. Use offset parameter to view more.]" ++ nl
        else resultText in
      Some (resultText ++ nl ++ strings_TrimSpace L paginatedOutput)
  end.

Definition hostOf (input : Input) : string :=
  if String.eqb (Host input) "" then defaultHost else Host input.

Definition portOf (input : Input) : Z :=
  if Port input =? 0 then defaultPort else Port input.

(** [WapitiHandler]. *)
Definition WapitiHandler (L : GoLib) (env : Env) (input : Input)
  : fullscan.outcome :=
  match validator_Struct L input with
  | Some e => fullscan.Returns None (Some ("validation error: " ++ e))
  | None =>
      let host := hostOf input in
      let port := portOf input in
      let params := {| tools.Host := host; tools.Port := port;
                       tools.Vhost := Vhost input |} in
      let scanResult := Scan env params in
      match tools.Error scanResult with
      | Some e =>
          fullscan.Returns None
            (Some (e ++ nl ++ "Output: " ++ tools.Output scanResult))
      | None =>
          let targetURL :=
            "http://" ++ fullscan.JoinHostPort host (Itoa port) in
          match formatOutput L targetURL (tools.Output scanResult)
                             (MaxLines input) (Offset input) with
          | Some resultText =>
              fullscan.Returns
                (Some {| tools.Content := [resultText] |}) None
          | None => fullscan.Panics
          end
      end
  end.

(** The tool as a [tools.Scanner]. *)
Definition New (available : bool) (env : Env) : tools.Scanner :=
  {| tools.Name := binaryName;
     tools.IsAvailable := available;
     tools.Scan := Scan env |}.

End wapiti.

(** ** Instances that compute

    An implementation of [GoLib] that is exact on ASCII text, on
    durations that are whole hundredths of a second and on the Gregorian
    calendar, and a database that sorts stably.  They serve to evaluate
    the program on concrete inputs; the general theorems do not depend
    on them. *)
Module concrete.
Import GoInt GoStrings.

Definition upperChar (c : ascii) : ascii :=
  let n := nat_of_ascii c in
  if (97 <=? n)%nat && (n <=? 122)%nat then ascii_of_nat (n - 32) else c.

Fixpoint ToUpper (s : string) : string :=
  match s with
  | EmptyString => ""
  | String c rest => String (upperChar c) (ToUpper rest)
  end.

Definition isSpace (c : ascii) : bool :=
  let n := nat_of_ascii c in
  (n =? 32)%nat || ((9 <=? n)%nat && (n <=? 13)%nat).

Fixpoint trimLeft (s : string) : string :=
  match s with
  | EmptyString => ""
  | String c rest => if isSpace c then trimLeft rest else s
  end.

Fixpoint trimRight (s : string) : string :=
  match s with
  | EmptyString => ""
  | String c rest =>
      match trimRight rest with
      | EmptyString => if isSpace c then "" else String c ""
      | kept => String c kept
      end
  end.

Definition TrimSpace (s : string) : string := trimRight (trimLeft s).

Definition pad10 (s : string) : string :=
  s ++ Repeat " " (10 - String.length s).

Definition twoDigits (z : Z) : string :=
  if z <? 10 then "0" ++ Itoa z else Itoa z.

(** Hundredths of a second, rounded half to even. *)
Definition seconds2 (d : Z) : string :=
  let a := Z.abs d in
  let q := a / 10000000 in
  let r := a mod 10000000 in
  let h := if (5000000 <? r) || ((r =? 5000000) && Z.odd q)
           then q + 1 else q in
  (if (d <? 0) && negb (h =? 0) then "-" else "")
  ++ Itoa (h / 100) ++ "." ++ twoDigits (h mod 100).

Definition weekdayName (n : Z) : string :=
  nth (Z.to_nat n) ["Sun"; "Mon"; "Tue"; "Wed"; "Thu"; "Fri"; "Sat"] "".

Definition monthName (m : Z) : string :=
  nth (Z.to_nat (m - 1))
      ["Jan"; "Feb"; "Mar"; "Apr"; "May"; "Jun";
       "Jul"; "Aug"; "Sep"; "Oct"; "Nov"; "Dec"] "".

Definition fourDigits (z : Z) : string :=
  (if z <? 10 then "000" else if z <? 100 then "00"
   else if z <? 1000 then "0" else "") ++ Itoa z.

(** [Format(time.RFC1123)] of a time given in seconds since 1970, UTC. *)
Definition RFC1123 (t : Z) : string :=
  let days := t / 86400 in
  let secs := t mod 86400 in
  let z := days + 719468 in
  let era := z / 146097 in
  let doe := z - era * 146097 in
  let yoe := (doe - doe / 1460 + doe / 36524 - doe / 146096) / 365 in
  let doy := doe - (365 * yoe + yoe / 4 - yoe / 100) in
  let mp := (5 * doy + 2) / 153 in
  let d := doy - (153 * mp + 2) / 5 + 1 in
  let m := if mp <? 10 then mp + 3 else mp - 9 in
  let y := yoe + era * 400 + (if m <=? 2 then 1 else 0) in
  weekdayName ((days + 4) mod 7) ++ ", " ++ twoDigits d ++ " "
  ++ monthName m ++ " " ++ fourDigits y ++ " "
  ++ twoDigits (secs / 3600) ++ ":" ++ twoDigits (secs / 60 mod 60) ++ ":"
  ++ twoDigits (secs mod 60) ++ " UTC".

Definition hostChar (c : ascii) : bool :=
  let n := nat_of_ascii c in
  ((48 <=? n)%nat && (n <=? 58)%nat)
  || ((65 <=? n)%nat && (n <=? 90)%nat)
  || ((97 <=? n)%nat && (n <=? 122)%nat)
  || (n =? 45)%nat || (n =? 46)%nat.

Fixpoint allChars (p : ascii -> bool) (s : string) : bool :=
  match s with
  | EmptyString => true
  | String c rest => p c && allChars p rest
  end.

Definition asciiLib : GoLib :=
  {| strings_ToUpper := ToUpper;
     strings_TrimSpace := TrimSpace;
     fmt_pad10 := pad10;
     fmt_seconds := seconds2;
     time_RFC1123 := RFC1123;
     is_hostname_or_ip := allChars hostChar |}.

(** A database that sorts by insertion: a row goes after the rows at
    least as recent that are already placed. *)
Fixpoint insertDesc (r : models.ToolExecution)
    (l : list models.ToolExecution) : list models.ToolExecution :=
  match l with
  | [] => [r]
  | x :: rest =>
      if models.CreatedAt x <? models.CreatedAt r then r :: l
      else x :: insertDesc r rest
  end.

Definition sortDesc : storage.SqlEngine :=
  fun l => fold_left (fun sorted r => insertDesc r sorted) l [].

End concrete.

(* ================================================================== *)
(** * Part II: properties *)
(* ================================================================== *)

Import GoInt GoStrings.

(** ** Integers, slices and strings *)

Lemma wrap_in_range (z : Z) : in_int z -> wrap z = z.
Proof.
  unfold in_int, int_min, int_max, wrap. intros H.
  rewrite Z.mod_small; lia.
Qed.

Lemma int_add_exact (a b : Z) : in_int (a + b) -> int_add a b = a + b.
Proof. apply wrap_in_range. Qed.

(** Adding a non-zero amount smaller than 2^64 never gives the same int. *)
Lemma int_add_moves (a b : Z) : 0 < b < 2 ^ 64 -> int_add a b <> a.
Proof.
  unfold int_add, wrap. intros Hb Heq.
  pose proof (Z.div_mod (a + b + 2 ^ 63) (2 ^ 64) ltac:(lia)) as Hdm.
  pose proof (Z.mod_pos_bound (a + b + 2 ^ 63) (2 ^ 64) ltac:(lia)) as Hbd.
  assert (Hq : b = 2 ^ 64 * ((a + b + 2 ^ 63) / 2 ^ 64)) by lia.
  destruct (Z_lt_le_dec ((a + b + 2 ^ 63) / 2 ^ 64) 1); lia.
Qed.


Lemma len_nonneg {A} (l : list A) : 0 <= len l.
Proof. unfold len. lia. Qed.

Lemma slice_len {A} (l w : list A) (lo hi : Z) :
  slice l lo hi = Some w -> len w = hi - lo /\ 0 <= lo <= hi /\ hi <= len l.
Proof.
  unfold slice, len.
  destruct (0 <=? lo) eqn:H0; [|discriminate].
  destruct (lo <=? hi) eqn:H1; [|discriminate].
  destruct (hi <=? Z.of_nat (List.length l)) eqn:H2; [|discriminate].
  simpl. intros [= <-].
  apply Z.leb_le in H0, H1, H2.
  rewrite length_firstn, length_skipn. lia.
Qed.

Lemma slice_head {A} (l : list A) (n : Z) :
  0 <= n <= len l -> slice l 0 n = Some (firstn (Z.to_nat n) l).
Proof.
  unfold slice, len. intros [H0 H1].
  replace (0 <=? 0) with true by reflexivity.
  destruct (0 <=? n) eqn:Ha; [|apply Z.leb_gt in Ha; lia].
  destruct (n <=? Z.of_nat (List.length l)) eqn:Hb; [|apply Z.leb_gt in Hb; lia].
  simpl. now rewrite Z.sub_0_r.
Qed.


Lemma Split_not_nil (s : string) : Split s <> [].
Proof.
  induction s as [|c rest IH]; simpl; [discriminate|].
  destruct (Ascii.eqb c newline); [discriminate|].
  destruct (Split rest); discriminate.
Qed.

Lemma len_Split_pos (s : string) : 1 <= len (Split s).
Proof.
  pose proof (Split_not_nil s) as H. unfold len.
  destruct (Split s); [contradiction|simpl; lia].
Qed.

Lemma string_app_assoc (a b c : string) : (a ++ b) ++ c = a ++ b ++ c.
Proof. induction a as [|x a IH]; simpl; [reflexivity|now rewrite IH]. Qed.

Lemma string_app_nil_r (a : string) : a ++ "" = a.
Proof. induction a as [|x a IH]; simpl; [reflexivity|now rewrite IH]. Qed.




(** ** The pagination window *)
Section Pagination.
Import fullscan.


(** The text of the test [TestApplyPagination_OffsetBeyondEnd]. *)
Definition threeLines : string := "line1" ++ nl ++ "line2" ++ nl ++ "line3".





(** The text of [TestApplyPagination_WithOffset]: fifty lines [lineA],
    [lineB], ... *)
Definition letterLines (n : nat) : list string :=
  map (fun i => "line" ++ String (ascii_of_nat (65 + i mod 26)) "") (seq 0 n).

Definition fiftyLines : string := Join (letterLines 50) nl.


(** C7: a limit of zero is the limit [MaxDefaultLines = 200]: the window,
    the flag, the total and the text returned are the same for both; and
    a window computed for a zero limit is never empty. *)
Theorem pagination_zero_limit_is_default :
  forall (output : string) (offset : Z),
    paginationWindow output 0 offset = paginationWindow output 200 offset /\
    applyPagination output 0 offset = applyPagination output 200 offset /\
    (forall window truncated total,
        paginationWindow output 0 offset = Some (window, truncated, total) ->
        window <> []).
Proof.
  intros output offset.
  assert (Heq : paginationWindow output 0 offset
                = paginationWindow output 200 offset) by reflexivity.
  split; [exact Heq|]. split.
  - unfold applyPagination. now rewrite Heq.
  - intros window truncated total.
    pose proof (len_Split_pos output) as Hpos.
    unfold paginationWindow. simpl (if 0 =? 0 then _ else _).
    unfold types.MaxDefaultLines.
    intros H Hnil. subst window.
    destruct ((0 <? offset) && (offset <? len (Split output))) eqn:E1.
    + apply andb_prop in E1 as [Ea Eb].
      apply Z.ltb_lt in Ea, Eb.
      destruct (int_add offset 200 <? len (Split output)) eqn:E2.
      * destruct (slice _ _ _) as [w|] eqn:Hs; [|discriminate].
        injection H as -> _ _.
        apply slice_len in Hs as (Hl & Hb & _).
        change (len (@nil string)) with 0 in Hl.
        apply (int_add_moves offset 200); lia.
      * destruct (slice _ _ _) as [w|] eqn:Hs; [|discriminate].
        injection H as -> _ _.
        apply slice_len in Hs as (Hl & _).
        change (len (@nil string)) with 0 in Hl. lia.
    + destruct (200 <? len (Split output)) eqn:E2.
      * destruct (slice _ _ _) as [w|] eqn:Hs; [|discriminate].
        injection H as -> _ _.
        apply slice_len in Hs as (Hl & _).
        change (len (@nil string)) with 0 in Hl. lia.
      * injection H as Hs _ _. now apply Split_not_nil in Hs.
Qed.

(** [TestApplyPagination_NoTruncation]: three lines and no limit given. *)
Lemma pagination_zero_limit_is_default_witness :
  applyPagination threeLines 0 0 = applyPagination threeLines 200 0.
Proof.
  exact (proj1 (proj2 (pagination_zero_limit_is_default threeLines 0))).
Defined.

End Pagination.

(** ** The fan-out and fan-in of [runScannersParallel] *)
Section FanOut.
Import fullscan.

Variable params : tools.ScanParams.

(** What identifies a record: the scanner's name, its output, its error. *)
Definition recordKey (r : scannerResult) : string * string * error :=
  (Name r, Output r, Error r).

(** The record a scanner contributes. *)
Definition expectedKey (s : tools.Scanner) : string * string * error :=
  (tools.Name s, tools.Output (tools.Scan s params),
   tools.Error (tools.Scan s params)).

Definition callOf (s : tools.Scanner) : string * tools.ScanParams :=
  (tools.Name s, params).

(** A state is consistent when a goroutine past its scan holds the
    result of that scan. *)
Definition taskOk (tk : task) : Prop :=
  match tk with
  | Launched _ => True
  | Scanned s r => r = tools.Scan s params
  end.

Definition taskKey (tk : task) : string * string * error :=
  match tk with
  | Launched s => expectedKey s
  | Scanned s r => (tools.Name s, tools.Output r, tools.Error r)
  end.

Definition pendingCalls (tks : list task)
  : list (string * tools.ScanParams) :=
  flat_map (fun tk => match tk with
                      | Launched s => [callOf s]
                      | Scanned _ _ => []
                      end) tks.

(** Records collected, in the channel, or still owed by a goroutine. *)
Definition allRecords (st : runState) : list (string * string * error) :=
  (map recordKey (results st) ++ map recordKey (resultsChan st)
   ++ map taskKey (tasks st))%list.

(** Scans made, or still to be made. *)
Definition allCalls (st : runState) : list (string * tools.ScanParams) :=
  (scanCalls st ++ pendingCalls (tasks st))%list.

(** Steps left: three for a goroutine that has not scanned, two for one
    that has, one for a record in the channel. *)
Definition stepsLeft (st : runState) : nat :=
  (list_sum (map (fun tk => match tk with
                            | Launched _ => 3
                            | Scanned _ _ => 2
                            end) (tasks st))
   + List.length (resultsChan st))%nat.

Lemma step_keeps_records (st st' : runState) :
  step params st st' -> Forall taskOk (tasks st) ->
  Permutation (allRecords st) (allRecords st') /\ Forall taskOk (tasks st').
Proof.
  intros Hstep Hok. destruct Hstep; unfold allRecords; simpl in *.
  - split.
    + rewrite !map_app. simpl. apply Permutation_refl.
    + apply Forall_app in Hok as [Hb Ha]. apply Forall_app. split; auto.
      inversion Ha; subst. constructor; simpl; auto.
  - split.
    + rewrite !map_app. simpl. apply Permutation_app_head.
      rewrite <- app_assoc. apply Permutation_app_head. simpl.
      symmetry. apply Permutation_middle.
    + apply Forall_app in Hok as [Hb Ha]. apply Forall_app. split; auto.
      now inversion Ha.
  - split; [|assumption].
    rewrite map_app, <- app_assoc. simpl. apply Permutation_refl.
Qed.

Lemma step_keeps_calls (st st' : runState) :
  step params st st' -> Permutation (allCalls st) (allCalls st').
Proof.
  intros Hstep. destruct Hstep; unfold allCalls, pendingCalls; simpl.
  - rewrite !flat_map_app. simpl. rewrite <- app_assoc. simpl.
    apply Permutation_app_head. symmetry. apply Permutation_middle.
  - rewrite !flat_map_app. simpl. apply Permutation_refl.
  - apply Permutation_refl.
Qed.

Lemma list_sum_app (l1 l2 : list nat) :
  list_sum (l1 ++ l2) = (list_sum l1 + list_sum l2)%nat.
Proof. induction l1; simpl; lia. Qed.

Lemma step_counts_down (st st' : runState) :
  step params st st' -> stepsLeft st = S (stepsLeft st').
Proof.
  intros Hstep. destruct Hstep; unfold stepsLeft; simpl;
    rewrite ?map_app, ?list_sum_app, ?length_app; simpl; lia.
Qed.

Lemma steps_keep (st st' : runState) :
  steps params st st' -> Forall taskOk (tasks st) ->
  Permutation (allRecords st) (allRecords st')
  /\ Permutation (allCalls st) (allCalls st')
  /\ Forall taskOk (tasks st').
Proof.
  induction 1 as [st|st1 st2 st3 Hstep _ IH]; intros Hok.
  - repeat split; auto.
  - destruct (step_keeps_records _ _ Hstep Hok) as [Hr Hok2].
    pose proof (step_keeps_calls _ _ Hstep) as Hc.
    destruct (IH Hok2) as (Hr' & Hc' & Hok3).
    repeat split; auto; eapply Permutation_trans; eauto.
Qed.

Lemma steps_trans (st1 st2 st3 : runState) :
  steps params st1 st2 -> steps params st2 st3 -> steps params st1 st3.
Proof.
  induction 1; intros; auto. econstructor; eauto.
Qed.

Lemma initial_ok (t : Tool) : Forall taskOk (tasks (initial t)).
Proof.
  unfold initial. simpl. apply Forall_forall. intros tk Hin.
  apply in_map_iff in Hin as (s & <- & _). exact I.
Qed.

Lemma initial_records (t : Tool) :
  allRecords (initial t) = map expectedKey (scanners t).
Proof. unfold allRecords, initial. simpl. now rewrite map_map. Qed.

Lemma initial_calls (t : Tool) :
  allCalls (initial t) = map callOf (scanners t).
Proof.
  unfold allCalls, initial, pendingCalls. simpl.
  induction (scanners t) as [|s ss IH]; simpl; [reflexivity|now rewrite IH].
Qed.

(** Every run that ends has scanned each scanner once and collected one
    record per scanner. *)
Lemma run_collects_each_once (t : Tool) (final : runState) :
  runScannersParallel t params final ->
  Permutation (map recordKey (results final)) (map expectedKey (scanners t))
  /\ Permutation (scanCalls final) (map callOf (scanners t)).
Proof.
  intros [Hsteps [Htasks Hchan]].
  destruct (steps_keep _ _ Hsteps (initial_ok t)) as (Hr & Hc & _).
  rewrite initial_records in Hr. rewrite initial_calls in Hc.
  unfold allRecords in Hr. unfold allCalls in Hc.
  rewrite Htasks, Hchan in Hr. rewrite Htasks in Hc. simpl in Hr, Hc.
  rewrite app_nil_r in Hr, Hc.
  split; symmetry; assumption.
Qed.

(** The interleaving in which the goroutines finish in list order is a
    run: the function always returns. *)
Lemma in_order_steps (ss : list tools.Scanner) :
  forall (ds : list Z) res calls,
    List.length ds = List.length ss -> Forall in_int ds ->
    exists calls',
      steps params
        {| tasks := map Launched ss; resultsChan := []; results := res;
           scanCalls := calls |}
        {| tasks := []; resultsChan := [];
           results := (res ++ runInOrder {| scanners := ss |} params ds)%list;
           scanCalls := calls' |}.
Proof.
  induction ss as [|s ss IH]; intros ds res calls Hlen Hds.
  - exists calls. unfold runInOrder. simpl. rewrite app_nil_r. constructor.
  - destruct ds as [|d ds]; [discriminate|].
    injection Hlen as Hlen. inversion Hds as [|? ? Hd Hds']; subst.
    destruct (IH ds (res ++ [{| Name := tools.Name s;
                                Output := tools.Output (tools.Scan s params);
                                Duration := d;
                                Error := tools.Error (tools.Scan s params) |}])%list
                 (calls ++ [(tools.Name s, params)])%list Hlen Hds')
      as [calls' Hrest].
    exists calls'. simpl map.
    eapply steps_cons; [exact (step_scan params [] s _ [] res calls)|].
    eapply steps_cons;
      [exact (step_send params [] s _ _ [] res _ d Hd)|].
    eapply steps_cons; [apply step_collect|].
    simpl. unfold runInOrder in *. simpl in *.
    rewrite <- app_assoc in Hrest. exact Hrest.
Qed.

Lemma run_in_order (t : Tool) (ds : list Z) :
  List.length ds = List.length (scanners t) -> Forall in_int ds ->
  exists final, runScannersParallel t params final
                /\ results final = runInOrder t params ds.
Proof.
  intros Hlen Hds.
  destruct (in_order_steps (scanners t) ds [] [] Hlen Hds) as [calls' H].
  eexists. split; [split; [exact H|split; reflexivity]|].
  simpl. destruct t. reflexivity.
Qed.

(** No run goes on for ever: from the start at most three steps per
    scanner can be taken. *)
Lemma run_is_bounded (st st' : runState) :
  steps params st st' -> (stepsLeft st' <= stepsLeft st)%nat.
Proof.
  induction 1 as [|st1 st2 st3 Hstep _ IH]; [lia|].
  apply step_counts_down in Hstep. lia.
Qed.

(** A state that is not final can take a step. *)
Lemma run_progress (st : runState) :
  terminal st \/ exists st', step params st st'.
Proof.
  destruct st as [tks chan res calls].
  destruct chan as [|r chan].
  - destruct tks as [|[s|s r] tks].
    + left. split; reflexivity.
    + right. eexists. exact (step_scan params [] s tks [] res calls).
    + right. eexists.
      refine (step_send params [] s r tks [] res calls 0 _).
      unfold in_int, int_min, int_max. lia.
  - right. eexists. apply step_collect.
Qed.

End FanOut.

Section Orchestrator.
Import fullscan.

Lemma zeros_in_int (n : nat) : Forall in_int (repeat 0 n).
Proof.
  apply Forall_forall. intros z Hz. apply repeat_spec in Hz. subst.
  unfold in_int, int_min, int_max. lia.
Qed.

(** C1: with [k] of the configured scanners available, registration
    keeps exactly those [k]; every run of the fan-out then makes exactly
    [k] calls of [Scan], one per available scanner, and collects exactly
    [k] records, one per available scanner with that scanner's name,
    output and error; such a run exists.  With [k = 0] registration
    fails with the availability error: the tool keeps its scanners
    unrun and nothing is added to the server. *)
Theorem fan_out_one_record_per_available_scanner
    (t : Tool) (srv : server.Server) (params : tools.ScanParams) :
  let available := filter tools.IsAvailable (scanners t) in
  let k := len available in
  (k = 0 ->
   Register t srv = (t, srv, Some "no scanner binaries available")) /\
  (0 < k ->
   let t' := {| scanners := available |} in
   Register t srv = (t', server.AddTool srv toolName, None) /\
   (exists final, runScannersParallel t' params final) /\
   (forall final,
       runScannersParallel t' params final ->
       len (scanCalls final) = k /\
       Permutation (scanCalls final) (map (callOf params) available) /\
       len (results final) = k /\
       Permutation (map recordKey (results final))
                   (map (expectedKey params) available))).
Proof.
  intros available k. split.
  - intros Hk. unfold Register. fold available. fold k.
    now rewrite Hk.
  - intros Hk t'. split; [|split].
    + unfold Register. fold available. fold k.
      destruct (k =? 0) eqn:E; [apply Z.eqb_eq in E; lia|reflexivity].
    + destruct (run_in_order params t' (repeat 0 (List.length available)))
        as (final & Hrun & _).
      * now rewrite repeat_length.
      * apply zeros_in_int.
      * now exists final.
    + intros final Hrun.
      destruct (run_collects_each_once params t' final Hrun) as [Hr Hc].
      simpl in Hr, Hc.
      pose proof (Permutation_length Hr) as Lr.
      pose proof (Permutation_length Hc) as Lc.
      rewrite !length_map in Lr. rewrite length_map in Lc.
      unfold k, len. repeat split; auto; lia.
Qed.

End Orchestrator.

(** ** The merged report *)

Lemma Contains_refl (s : string) : Contains s s.
Proof. exists "", "". simpl. now rewrite string_app_nil_r. Qed.

Lemma Contains_app_r (a s x : string) : Contains s x -> Contains (a ++ s) x.
Proof.
  intros (pre & post & ->). exists (a ++ pre), post.
  now rewrite string_app_assoc.
Qed.

Lemma Contains_app_l (s b x : string) : Contains s x -> Contains (s ++ b) x.
Proof.
  intros (pre & post & ->). exists pre, (post ++ b).
  now rewrite !string_app_assoc.
Qed.


(** Concatenation of a list of strings. *)
Definition joinAll (l : list string) : string := fold_right append "" l.

Lemma joinAll_In {A} (f : A -> string) (l : list A) (x : A) :
  In x l -> Contains (joinAll (map f l)) (f x).
Proof.
  induction l as [|y l IH]; intros Hin; [contradiction|].
  simpl. destruct Hin as [-> | Hin].
  - apply Contains_app_l, Contains_refl.
  - apply Contains_app_r, IH, Hin.
Qed.

Section Merge.
Import fullscan.
Variable L : GoLib.

Lemma summary_text (rs : list scannerResult) (acc : summaryAcc) :
  text (fold_left (summaryStep L) rs acc)
  = text acc ++ joinAll (map (summaryLine L) rs).
Proof.
  revert acc. induction rs as [|r rs IH]; intros acc; simpl.
  - now rewrite string_app_nil_r.
  - rewrite IH. simpl. now rewrite string_app_assoc.
Qed.

Lemma sections_text (rs : list scannerResult) (b : string) :
  fold_left (fun b r => b ++ resultSection L r) rs b
  = b ++ joinAll (map (resultSection L) rs).
Proof.
  revert b. induction rs as [|r rs IH]; intros b; simpl.
  - now rewrite string_app_nil_r.
  - rewrite IH. now rewrite string_app_assoc.
Qed.

Ltac find_chunk :=
  solve [ apply joinAll_In; assumption
        | apply Contains_app_l; find_chunk
        | apply Contains_app_r; find_chunk ].

Lemma merged_has_summary_line (now : Z) (url : string)
    (rs : list scannerResult) (r : scannerResult) :
  In r rs -> Contains (mergeResults L now url rs) (summaryLine L r).
Proof.
  intros Hin. unfold mergeResults, reportBody.
  rewrite summary_text. find_chunk.
Qed.

Lemma merged_has_section (now : Z) (url : string)
    (rs : list scannerResult) (r : scannerResult) :
  In r rs -> Contains (mergeResults L now url rs) (resultSection L r).
Proof.
  intros Hin. unfold mergeResults, reportBody.
  rewrite sections_text. find_chunk.
Qed.

End Merge.

Section MergeClock.
Import fullscan.

(** The records of [TestMergeResults_Success]. *)
Definition twoFindings : list scannerResult :=
  [ {| Name := "scanner1"; Output := "findings from scanner1";
       Duration := 1000000000; Error := None |};
    {| Name := "scanner2"; Output := "findings from scanner2";
       Duration := 2000000000; Error := None |} ].

(** C3, the claim as stated fails: the report carries the time of its
    generation, so two merges of the same records for the same target,
    made one second apart, differ. *)
Lemma merge_twice_differs_across_seconds :
  time_RFC1123 concrete.asciiLib 1793502245 = "Sun, 01 Nov 2026 03:04:05 UTC" /\
  time_RFC1123 concrete.asciiLib 1793502246 = "Sun, 01 Nov 2026 03:04:06 UTC" /\
  String.eqb
    (mergeResults concrete.asciiLib 1793502245 "http://localhost:80" twoFindings)
    (mergeResults concrete.asciiLib 1793502246 "http://localhost:80" twoFindings)
  = false.
Proof. repeat split; vm_compute; reflexivity. Qed.

(** C3, amended: the report is a function of the list of records, the
    target and the reading of the clock as the [Date:] line prints it.
    Two merges of the same list for the same target are the same text
    around that reading, and are byte-identical whenever the clock reads
    the same. *)
Theorem merge_is_deterministic_up_to_date
    (L : GoLib) (targetURL : string) (results : list scannerResult) :
  (exists before after,
      forall now,
        mergeResults L now targetURL results
        = before ++ "Date: " ++ time_RFC1123 L now ++ nl ++ after) /\
  (forall now1 now2,
      time_RFC1123 L now1 = time_RFC1123 L now2 ->
      mergeResults L now1 targetURL results
      = mergeResults L now2 targetURL results).
Proof.
  split.
  - exists (reportHeader targetURL), (reportBody L results).
    intros now. reflexivity.
  - intros now1 now2 H. unfold mergeResults. now rewrite H.
Qed.

Lemma merge_is_deterministic_up_to_date_witness :
  mergeResults concrete.asciiLib 1793502245 "http://localhost:80" twoFindings
  = mergeResults concrete.asciiLib 1793502245 "http://localhost:80" twoFindings.
Proof.
  refine (proj2 (merge_is_deterministic_up_to_date concrete.asciiLib
                   "http://localhost:80" twoFindings) _ _ _).
  reflexivity.
Defined.

End MergeClock.

(** ** The aggregate handler *)
Section Handler.
Import fullscan.
Variable L : GoLib.

(** The line count of a text leaves room for the largest limit that
    validation lets through; every text a Go program can hold does. *)
Definition fitsInt (output : string) : Prop :=
  len (Split output) + types.MaxAllowedLines <= int_max.

Lemma checkMinMax_ok (field : string) (v lo : Z) (hi : option Z) :
  checkMinMax field v lo hi = [] ->
  lo <= v /\ match hi with Some h => v <= h | None => True end.
Proof.
  unfold checkMinMax. destruct (v <? lo) eqn:E; [discriminate|].
  apply Z.ltb_ge in E. destruct hi as [h|]; [|auto].
  destruct (h <? v) eqn:E'; [discriminate|].
  apply Z.ltb_ge in E'. auto.
Qed.

Lemma validated_bounds (input : Input) :
  validator_Struct L input = None ->
  0 <= Port input <= 65535 /\ 0 <= MaxLines input <= 100000
  /\ 0 <= Offset input.
Proof.
  unfold validator_Struct.
  destruct (fieldErrors L input) as [|e errs] eqn:E; [intros _|discriminate].
  unfold fieldErrors in E.
  apply app_eq_nil in E as [_ E]. apply app_eq_nil in E as [Ep E].
  apply app_eq_nil in E as [Em Eo].
  apply checkMinMax_ok in Ep, Em, Eo. lia.
Qed.

Lemma applyPagination_total (output : string) (maxLines offset : Z) :
  0 <= maxLines <= 100000 -> fitsInt output ->
  exists resultText, applyPagination output maxLines offset = Some resultText.
Proof.
  intros Hmax Hfit. unfold fitsInt, types.MaxAllowedLines in Hfit.
  pose proof (len_Split_pos output) as Hpos.
  assert (Hwin : exists w, paginationWindow output maxLines offset = Some w).
  { unfold paginationWindow.
    set (m := if maxLines =? 0 then types.MaxDefaultLines else maxLines).
    assert (Hm : 1 <= m <= 100000).
    { unfold m, types.MaxDefaultLines.
      destruct (maxLines =? 0) eqn:E; [lia|apply Z.eqb_neq in E; lia]. }
    destruct ((0 <? offset) && (offset <? len (Split output))) eqn:E1.
    - apply andb_prop in E1 as [Ea Eb]. apply Z.ltb_lt in Ea, Eb.
      assert (Hadd : int_add offset m = offset + m).
      { apply int_add_exact. unfold in_int, int_min, int_max in *. lia. }
      rewrite Hadd.
      destruct (offset + m <? len (Split output)) eqn:E2.
      + apply Z.ltb_lt in E2. unfold slice.
        replace (0 <=? offset) with true by (symmetry; apply Z.leb_le; lia).
        replace (offset <=? offset + m) with true
          by (symmetry; apply Z.leb_le; lia).
        replace (offset + m <=? len (Split output)) with true
          by (symmetry; apply Z.leb_le; lia).
        simpl. eauto.
      + unfold slice.
        replace (0 <=? offset) with true by (symmetry; apply Z.leb_le; lia).
        replace (offset <=? len (Split output)) with true
          by (symmetry; apply Z.leb_le; lia).
        rewrite Z.leb_refl. simpl. eauto.
    - destruct (m <? len (Split output)) eqn:E2; [|eauto].
      apply Z.ltb_lt in E2. rewrite slice_head by lia. simpl. eauto. }
  destruct Hwin as [[[w tr] n] Hwin].
  unfold applyPagination. rewrite Hwin. eauto.
Qed.


End Handler.

(** ** The execution-logging interceptor *)
Section Interceptor.
Import tools.
Context {In Out : Type}.
Variable json_Marshal_In : In -> string.
Variable json_Marshal_Result : CallToolResult -> string.

(** The record a call through the interceptor hands to the ledger. *)
Definition logged (toolName : string) (handler : @Handler In Out)
    (startTime endTime : Z) (req : CallToolRequest) (input : In)
  : models.ToolExecution :=
  snd (WrapToolHandler json_Marshal_In json_Marshal_Result toolName handler
         startTime endTime req input).

(** What the caller of the wrapped handler gets back. *)
Definition returned (toolName : string) (handler : @Handler In Out)
    (startTime endTime : Z) (req : CallToolRequest) (input : In)
  : option CallToolResult * Out * error :=
  fst (WrapToolHandler json_Marshal_In json_Marshal_Result toolName handler
         startTime endTime req input).

(** C4, amended: the interceptor hands back what the handler returned;
    the record it builds has [Success] set exactly when the returned
    error is nil; its error message is empty when [Success] is set and
    is the text of the error otherwise.  So the error message is
    non-empty exactly when [Success] is false, provided the text of the
    returned error is not empty. *)
Theorem interceptor_record_matches_error
    (toolName : string) (handler : @Handler In Out)
    (startTime endTime : Z) (req : CallToolRequest) (input : In) :
  let exec := logged toolName handler startTime endTime req input in
  let err := snd (handler req input) in
  returned toolName handler startTime endTime req input = handler req input /\
  (models.Success exec = true <-> err = None) /\
  (models.Success exec = true -> models.ErrorMessage exec = "") /\
  (forall e, err = Some e -> models.ErrorMessage exec = e) /\
  ((forall e, err = Some e -> e <> "") ->
   (models.Success exec = false <-> models.ErrorMessage exec <> "")).
Proof.
  unfold logged, returned, WrapToolHandler.
  destruct (handler req input) as [[result output] [e|]]; simpl.
  - repeat split; try discriminate; try congruence.
    + intros _. match goal with H : forall e', _ -> e' <> "" |- _ =>
                  apply H; reflexivity end.
  - repeat split; try discriminate; try congruence.
Qed.

End Interceptor.

Section InterceptorExamples.
Import tools.

(** A handler that fails with an error whose text is empty, as
    [errors.New("")] is. *)
Definition silentFailure : @Handler unit unit :=
  fun _ _ => (None, tt, Some "").

(** A handler that fails the way the handlers of this repository do. *)
Definition invalidInput : @Handler unit unit :=
  fun _ _ => (None, tt, Some "validation error: bad port").

(** C4, the claim as stated fails: a handler may return an error whose
    text is empty; the record then has [Success = false] and an empty
    error message. *)
Lemma interceptor_empty_error_message :
  snd (silentFailure {| Session := None |} tt) = Some "" /\
  models.Success
    (logged (fun _ => "null") (fun _ => "null") "nikto" silentFailure
            0 1500000 {| Session := None |} tt) = false /\
  models.ErrorMessage
    (logged (fun _ => "null") (fun _ => "null") "nikto" silentFailure
            0 1500000 {| Session := None |} tt) = "".
Proof. repeat split. Qed.

Lemma interceptor_record_matches_error_witness :
  models.ErrorMessage
    (logged (fun _ => "null") (fun _ => "null") "nikto" invalidInput
            0 1500000 {| Session := None |} tt)
  = "validation error: bad port".
Proof.
  refine (proj1 (proj2 (proj2 (proj2
            (interceptor_record_matches_error
               (fun _ => "null") (fun _ => "null") "nikto" invalidInput
               0 1500000 {| Session := None |} tt)))) _ _).
  reflexivity.
Defined.

End InterceptorExamples.

(** ** The ledger *)
Section LedgerBasics.
Import models storage.

Lemma In_firstn {A} (n : nat) (l : list A) (x : A) :
  List.In x (firstn n l) -> List.In x l.
Proof.
  intros H. rewrite <- (firstn_skipn n l). apply in_or_app. now left.
Qed.

Lemma In_skipn {A} (n : nat) (l : list A) (x : A) :
  List.In x (skipn n l) -> List.In x l.
Proof.
  intros H. rewrite <- (firstn_skipn n l). apply in_or_app. now right.
Qed.

Lemma In_applyLimit {A} (limit : Z) (l : list A) (x : A) :
  List.In x (applyLimit limit l) -> List.In x l.
Proof.
  unfold applyLimit. destruct (0 <? limit); [apply In_firstn|auto].
Qed.

Lemma In_applyOffset {A} (offset : Z) (l : list A) (x : A) :
  List.In x (applyOffset offset l) -> List.In x l.
Proof.
  unfold applyOffset. destruct (0 <? offset); [apply In_skipn|auto].
Qed.

Lemma sorted_firstn {A} (R : A -> A -> Prop) (n : nat) (l : list A) :
  StronglySorted R l -> StronglySorted R (firstn n l).
Proof.
  revert n. induction l as [|x l IH]; intros n H.
  - rewrite firstn_nil. constructor.
  - destruct n as [|n]; [constructor|]. simpl.
    inversion H as [|? ? Hl Hx]; subst. constructor; [now apply IH|].
    apply Forall_forall. intros y Hy. apply In_firstn in Hy.
    revert y Hy. now apply Forall_forall.
Qed.

Lemma sorted_skipn {A} (R : A -> A -> Prop) (n : nat) (l : list A) :
  StronglySorted R l -> StronglySorted R (skipn n l).
Proof.
  revert n. induction l as [|x l IH]; intros n H.
  - rewrite skipn_nil. constructor.
  - destruct n as [|n]; [exact H|]. simpl.
    inversion H; subst. now apply IH.
Qed.

Lemma sorted_page {A} (R : A -> A -> Prop) (limit offset : Z) (l : list A) :
  StronglySorted R l ->
  StronglySorted R (applyLimit limit (applyOffset offset l)).
Proof.
  intros H. unfold applyLimit, applyOffset.
  destruct (0 <? limit), (0 <? offset);
    auto using sorted_firstn, sorted_skipn.
Qed.

(** A list in non-increasing order whose times are pairwise distinct is
    in strictly decreasing order. *)
Lemma sorted_strict (l : list ToolExecution) :
  StronglySorted notOlder l -> NoDup (map CreatedAt l) ->
  StronglySorted (fun a b => CreatedAt b < CreatedAt a) l.
Proof.
  induction 1 as [|a l Hs IH Ha]; intros Hnd; [constructor|].
  simpl in Hnd. inversion Hnd as [|? ? Hnotin Hnd']; subst.
  constructor; [now apply IH|].
  apply Forall_forall. intros b Hb.
  pose proof (proj1 (Forall_forall _ _) Ha b Hb) as Hle.
  unfold notOlder in Hle.
  assert (CreatedAt b <> CreatedAt a).
  { intros Heq. apply Hnotin. rewrite <- Heq. now apply in_map. }
  lia.
Qed.

Lemma find_none_all {A} (f : A -> bool) (l : list A) :
  (forall x, List.In x l -> f x = false) -> find f l = None.
Proof.
  induction l as [|x l IH]; intros H; [reflexivity|]. simpl.
  rewrite (H x (or_introl eq_refl)). apply IH. intros y Hy.
  apply H. now right.
Qed.

(** *** The stable database is a database *)

Lemma insertDesc_perm (r : ToolExecution) (l : list ToolExecution) :
  Permutation (r :: l) (concrete.insertDesc r l).
Proof.
  induction l as [|x l IH]; simpl; [apply Permutation_refl|].
  destruct (CreatedAt x <? CreatedAt r); [apply Permutation_refl|].
  eapply Permutation_trans; [apply perm_swap|]. now apply perm_skip.
Qed.

Lemma insertDesc_sorted (r : ToolExecution) (l : list ToolExecution) :
  StronglySorted notOlder l ->
  StronglySorted notOlder (concrete.insertDesc r l).
Proof.
  induction 1 as [|x l Hs IH Hx]; simpl.
  - repeat constructor.
  - destruct (CreatedAt x <? CreatedAt r) eqn:E.
    + apply Z.ltb_lt in E. constructor; [now constructor|].
      constructor; [unfold notOlder; lia|].
      apply Forall_forall. intros y Hy.
      pose proof (proj1 (Forall_forall _ _) Hx y Hy) as Hle.
      unfold notOlder in *. lia.
    + apply Z.ltb_ge in E. constructor; [exact IH|].
      apply Forall_forall. intros y Hy.
      apply (Permutation_in _ (Permutation_sym (insertDesc_perm r l))) in Hy.
      destruct Hy as [<- | Hy]; [exact E|].
      now apply (proj1 (Forall_forall _ _) Hx).
Qed.

Lemma sortDesc_orders : orders_by_created_at_desc concrete.sortDesc.
Proof.
  assert (Hgen : forall l acc,
             StronglySorted notOlder acc ->
             Permutation (acc ++ l)
               (fold_left (fun sorted r => concrete.insertDesc r sorted) l acc)
             /\ StronglySorted notOlder
                  (fold_left (fun sorted r => concrete.insertDesc r sorted)
                             l acc)).
  { induction l as [|r l IH]; intros acc Hacc; simpl.
    - rewrite app_nil_r. split; [apply Permutation_refl|exact Hacc].
    - destruct (IH (concrete.insertDesc r acc) (insertDesc_sorted r acc Hacc))
        as [Hp Hs].
      split; [|exact Hs].
      eapply Permutation_trans; [|exact Hp].
      apply Permutation_trans with ((r :: acc) ++ l)%list.
      + symmetry. apply Permutation_middle.
      + apply Permutation_app_tail, insertDesc_perm. }
  split; intros l; destruct (Hgen l [] (SSorted_nil _)) as [Hp Hs].
  - exact Hp.
  - exact Hs.
Qed.

End LedgerBasics.

Section LedgerOrder.
Import models storage.

(** An execution as the interceptor submits it: no id, no time yet. *)
Definition submitted (toolName : string) : ToolExecution :=
  {| ID := 0; CreatedAt := 0; DeletedAt := None; SessionID := "";
     ToolName := toolName; InputJSON := "{}"; OutputJSON := "";
     ErrorMessage := ""; DurationMs := 0; Success := true |}.

(** Two executions recorded at the same reading of the clock. *)
Definition twoAtOnce : SQLiteStorage :=
  performAll empty [Create 1000 (submitted "nikto");
                    Create 1000 (submitted "wapiti")].

(** Two executions recorded one after the other, the clock advancing. *)
Definition twoInTurn : SQLiteStorage :=
  performAll empty [Create 1000 (submitted "nikto");
                    Create 2000 (submitted "wapiti")].

Definition idAndTime (r : ToolExecution) : Z * Z := (ID r, CreatedAt r).

(** C8, the claim as stated fails: the query orders by [created_at]
    only.  A database that honours [ORDER BY created_at DESC] and keeps
    rows of equal time in table order lists two executions recorded at
    the same time with the smaller id first: creation times are not
    strictly descending and the tie is not broken by id descending. *)
Lemma list_leaves_ties_in_table_order :
  orders_by_created_at_desc concrete.sortDesc /\
  map idAndTime (fst (fst (GetToolExecutions concrete.sortDesc twoAtOnce 10 0)))
  = [(1, 1000); (2, 1000)].
Proof. split; [exact sortDesc_orders|reflexivity]. Qed.

(** C8, amended: whatever the database does with ties, [list] returns
    live records in non-increasing order of creation time, strictly
    decreasing when the creation times of the live records are pairwise
    distinct.  The order of records of equal creation time is not fixed. *)
Theorem list_is_ordered_by_creation_time
    (E : SqlEngine) (s : SQLiteStorage) (limit offset : Z) :
  orders_by_created_at_desc E ->
  let executions := fst (fst (GetToolExecutions E s limit offset)) in
  StronglySorted notOlder executions /\
  (NoDup (map CreatedAt (visible s)) ->
   StronglySorted (fun a b => CreatedAt b < CreatedAt a) executions) /\
  (forall r, List.In r executions -> List.In r (visible s)).
Proof.
  intros [Hperm Hsort] executions. unfold executions, GetToolExecutions.
  simpl. split; [|split].
  - apply sorted_page, Hsort.
  - intros Hnd. apply sorted_page, sorted_strict; [apply Hsort|].
    eapply Permutation_NoDup; [|exact Hnd].
    apply Permutation_map, Hperm.
  - intros r Hr. apply In_applyLimit, In_applyOffset in Hr.
    eapply Permutation_in; [symmetry; apply Hperm|exact Hr].
Qed.

Lemma list_is_ordered_by_creation_time_witness :
  StronglySorted (fun a b => CreatedAt b < CreatedAt a)
    (fst (fst (GetToolExecutions concrete.sortDesc twoInTurn 10 0))).
Proof.
  refine (proj1 (proj2 (list_is_ordered_by_creation_time
                          concrete.sortDesc twoInTurn 10 0 sortDesc_orders)) _).
  vm_compute. repeat constructor; simpl; intuition discriminate.
Defined.

End LedgerOrder.

Section LedgerSoftDelete.
Import models storage.

(** The invariant of the table: ids are unique and none exceeds the
    AUTOINCREMENT counter. *)
Definition consistent (s : SQLiteStorage) : Prop :=
  NoDup (map ID (rows s)) /\
  Forall (fun r => ID r <= sqlite_sequence s) (rows s).

(** The record [d] is in the table, soft-deleted. *)
Definition retired (d : ToolExecution) (s : SQLiteStorage) : Prop :=
  List.In d (rows s) /\ live d = false.

Definition softDeleteRow (now id : Z) (r : ToolExecution) : ToolExecution :=
  if hasID id r && live r then withDeletedAt r (Some now) else r.

Lemma softDeleteRow_ID (now id : Z) (r : ToolExecution) :
  ID (softDeleteRow now id r) = ID r.
Proof. unfold softDeleteRow. destruct (hasID id r && live r); reflexivity. Qed.

Lemma softDeleteAll_ID (now : Z) (r : ToolExecution) :
  ID (if live r then withDeletedAt r (Some now) else r) = ID r.
Proof. destruct (live r); reflexivity. Qed.

Lemma map_ID_preserved (f : ToolExecution -> ToolExecution)
    (l : list ToolExecution) :
  (forall r, ID (f r) = ID r) -> map ID (map f l) = map ID l.
Proof.
  intros H. rewrite map_map. apply map_ext. exact H.
Qed.

Lemma existsb_hasID_false (id : Z) (l : list ToolExecution) :
  existsb (hasID id) l = false -> ~ List.In id (map ID l).
Proof.
  intros H Hin. apply in_map_iff in Hin as (r & Hid & Hr).
  assert (existsb (hasID id) l = true).
  { apply existsb_exists. exists r. split; [exact Hr|].
    unfold hasID. now apply Z.eqb_eq. }
  congruence.
Qed.

Lemma NoDup_snoc (l : list Z) (x : Z) :
  NoDup l -> ~ List.In x l -> NoDup (l ++ [x]).
Proof.
  intros Hnd Hx. apply (Permutation_NoDup (l := x :: l)).
  - apply Permutation_cons_append.
  - now constructor.
Qed.

Lemma perform_consistent (s : SQLiteStorage) (op : operation) :
  consistent s -> consistent (perform s op).
Proof.
  intros [Hnd Hle]. destruct op as [now exec|now id|now]; simpl.
  - unfold CreateToolExecution.
    destruct (ID exec =? 0).
    + destruct (int_max <=? sqlite_sequence s); [split; assumption|].
      unfold consistent; simpl. split.
      * rewrite map_app. simpl. apply NoDup_snoc; [exact Hnd|].
        intros Hin. apply in_map_iff in Hin as (r & Hid & Hr).
        pose proof (proj1 (Forall_forall _ _) Hle r Hr) as H. simpl in H. lia.
      * apply Forall_app. split.
        -- eapply Forall_impl; [|exact Hle]. simpl. intros; lia.
        -- repeat constructor. simpl. lia.
    + destruct (existsb (hasID (ID exec)) (rows s)) eqn:Ex;
        [split; assumption|].
      unfold consistent; simpl. split.
      * rewrite map_app. simpl. apply NoDup_snoc; [exact Hnd|].
        now apply existsb_hasID_false.
      * apply Forall_app. split.
        -- eapply Forall_impl; [|exact Hle]. simpl. intros; lia.
        -- repeat constructor. simpl. lia.
  - unfold consistent; split; simpl.
    + rewrite map_ID_preserved; [exact Hnd|]. apply softDeleteRow_ID.
    + apply Forall_forall. intros r Hr.
      apply in_map_iff in Hr as (r0 & <- & Hr0).
      fold (softDeleteRow now id r0). rewrite softDeleteRow_ID.
      now apply (proj1 (Forall_forall _ _) Hle).
  - unfold consistent; split; simpl.
    + rewrite map_ID_preserved; [exact Hnd|]. apply softDeleteAll_ID.
    + apply Forall_forall. intros r Hr.
      apply in_map_iff in Hr as (r0 & <- & Hr0).
      rewrite softDeleteAll_ID.
      now apply (proj1 (Forall_forall _ _) Hle).
Qed.

(** Every ledger built from the empty one is consistent. *)
Lemma performAll_consistent (s : SQLiteStorage) (ops : list operation) :
  consistent s -> consistent (performAll s ops).
Proof.
  revert s. induction ops as [|op ops IH]; intros s H; [exact H|].
  simpl. apply IH, perform_consistent, H.
Qed.

Lemma empty_consistent : consistent empty.
Proof. split; simpl; constructor. Qed.

(** No operation touches a soft-deleted row. *)
Lemma perform_retired (d : ToolExecution) (s : SQLiteStorage)
    (op : operation) :
  retired d s -> retired d (perform s op).
Proof.
  intros [Hin Hdead]. split; [|exact Hdead].
  destruct op as [now exec|now id|now]; simpl.
  - unfold CreateToolExecution.
    destruct (ID exec =? 0).
    + destruct (int_max <=? sqlite_sequence s); [exact Hin|].
      simpl. apply in_or_app. now left.
    + destruct (existsb (hasID (ID exec)) (rows s)); [exact Hin|].
      simpl. apply in_or_app. now left.
  - apply in_map_iff. exists d. split; [|exact Hin].
    rewrite Hdead. now rewrite andb_false_r.
  - apply in_map_iff. exists d. split; [|exact Hin]. now rewrite Hdead.
Qed.

Lemma performAll_retired (d : ToolExecution) (s : SQLiteStorage)
    (ops : list operation) :
  retired d s -> retired d (performAll s ops).
Proof.
  revert s. induction ops as [|op ops IH]; intros s H; [exact H|].
  simpl. apply IH, perform_retired, H.
Qed.

(** In a consistent table a retired record is the only row with its id,
    so no live row carries that id. *)
Lemma retired_id_not_live (d : ToolExecution) (s : SQLiteStorage) :
  consistent s -> retired d s ->
  forall r, List.In r (rows s) -> ID r = ID d -> r = d.
Proof.
  intros [Hnd _] [Hin _]. revert Hnd Hin.
  induction (rows s) as [|x l IH]; intros Hnd Hin r Hr Hid; [contradiction|].
  simpl in Hnd. inversion Hnd as [|? ? Hx Hnd']; subst.
  destruct Hin as [-> | Hin], Hr as [-> | Hr]; auto.
  - exfalso. apply Hx. rewrite <- Hid. now apply in_map.
  - exfalso. apply Hx. rewrite Hid. now apply in_map.
Qed.

Lemma retired_not_visible (d : ToolExecution) (s : SQLiteStorage) :
  consistent s -> retired d s ->
  forall r, List.In r (visible s) -> ID r <> ID d.
Proof.
  intros Hc Hd r Hr Hid. unfold visible in Hr.
  apply filter_In in Hr as [Hr Hlive].
  rewrite (retired_id_not_live d s Hc Hd r Hr Hid) in Hlive.
  destruct Hd as [_ Hdead]. congruence.
Qed.

(** Deleting the live row with id [id] removes one row from view. *)
Lemma delete_hides_one (now id : Z) (l : list ToolExecution)
    (r : ToolExecution) :
  NoDup (map ID l) -> List.In r l -> live r = true -> ID r = id ->
  S (List.length (filter live (map (softDeleteRow now id) l)))
  = List.length (filter live l).
Proof.
  induction l as [|x l IH]; intros Hnd Hin Hlive Hid; [contradiction|].
  simpl in Hnd. inversion Hnd as [|? ? Hx Hnd']; subst.
  destruct Hin as [-> | Hin].
  - simpl. unfold softDeleteRow at 1. unfold hasID.
    rewrite Z.eqb_refl, Hlive. simpl. f_equal.
    f_equal. f_equal. rewrite <- (map_id l) at 2.
    apply map_ext_in. intros y Hy. unfold softDeleteRow, hasID.
    destruct (ID y =? ID r) eqn:E; [|reflexivity].
    apply Z.eqb_eq in E. exfalso. apply Hx. rewrite <- E. now apply in_map.
  - simpl. unfold softDeleteRow at 1. unfold hasID.
    destruct (ID x =? ID r) eqn:E.
    + apply Z.eqb_eq in E. exfalso. apply Hx. rewrite E. now apply in_map.
    + simpl. destruct (live x); simpl; rewrite (IH Hnd' Hin Hlive eq_refl);
        reflexivity.
Qed.

End LedgerSoftDelete.

Section LedgerSoftDeleteClaim.
Import models storage.

(** C9: in a ledger built from the empty one by any sequence of
    operations, soft-deleting the id of a live record succeeds; right
    after it [GetToolExecution] reports not-found for that id and the
    total that [GetToolExecutions] returns is one less than before; and
    whatever operations follow, the id stays not-found, no read query
    returns a record with that id, and every row carrying the id is the
    deleted record itself: the id is never given to another record. *)
Theorem soft_delete_excludes_record
    (E : SqlEngine) (history : list operation) (now id : Z) :
  orders_by_created_at_desc E ->
  let s := performAll empty history in
  (exists r, List.In r (visible s) /\ ID r = id) ->
  let s' := fst (DeleteToolExecution s now id) in
  snd (DeleteToolExecution s now id) = None /\
  GetToolExecution s' id = (None, Some ErrRecordNotFound) /\
  (forall limit offset limit' offset',
      snd (fst (GetToolExecutions E s' limit' offset'))
      = snd (fst (GetToolExecutions E s limit offset)) - 1) /\
  (forall later,
      let s'' := performAll s' later in
      GetToolExecution s'' id = (None, Some ErrRecordNotFound) /\
      (forall limit offset r,
          List.In r (fst (fst (GetToolExecutions E s'' limit offset))) ->
          ID r <> id) /\
      (forall sessionID r,
          List.In r (fst (GetToolExecutionsBySession E s'' sessionID)) ->
          ID r <> id) /\
      (forall toolName limit r,
          List.In r (fst (GetToolExecutionsByTool E s'' toolName limit)) ->
          ID r <> id) /\
      (forall r, List.In r (rows s'') -> ID r = id ->
                 DeletedAt r = Some now)).
Proof.
  intros [Hperm _] s (r0 & Hvis & Hid) s'.
  assert (Hs : consistent s)
    by apply performAll_consistent, empty_consistent.
  unfold visible in Hvis. apply filter_In in Hvis as [Hin0 Hlive0].
  set (d := withDeletedAt r0 (Some now)).
  assert (Hs' : consistent s') by apply (perform_consistent s (Delete now id) Hs).
  assert (Hd : retired d s').
  { split; [|reflexivity]. unfold s'. simpl. apply in_map_iff.
    exists r0. split; [|exact Hin0].
    unfold hasID. rewrite Hid, Z.eqb_refl, Hlive0. reflexivity. }
  assert (Hdid : ID d = id) by exact Hid.
  assert (Hgone : forall s2, consistent s2 -> retired d s2 ->
            GetToolExecution s2 id = (None, Some ErrRecordNotFound)).
  { intros s2 Hc2 Hd2. unfold GetToolExecution.
    rewrite find_none_all; [reflexivity|].
    intros x Hx. unfold hasID. apply Z.eqb_neq. rewrite <- Hdid.
    now apply (retired_not_visible d s2). }
  split; [reflexivity|]. split; [now apply Hgone|]. split.
  - intros limit offset limit' offset'. unfold GetToolExecutions. simpl.
    unfold visible, len. unfold s'. simpl.
    destruct Hs as [Hnd _].
    pose proof (delete_hides_one now id (rows s) r0 Hnd Hin0 Hlive0 Hid) as H.
    unfold softDeleteRow in H. lia.
  - intros later s''.
    assert (Hs'' : consistent s'') by now apply performAll_consistent.
    assert (Hd'' : retired d s'') by now apply performAll_retired.
    pose proof (retired_not_visible d s'' Hs'' Hd'') as Hnv.
    rewrite Hdid in Hnv.
    split; [now apply Hgone|]. split; [|split; [|split]].
    + intros limit offset r Hr. unfold GetToolExecutions in Hr. simpl in Hr.
      apply In_applyLimit, In_applyOffset in Hr. apply Hnv.
      eapply Permutation_in; [symmetry; apply Hperm|exact Hr].
    + intros sessionID r Hr. unfold GetToolExecutionsBySession in Hr.
      simpl in Hr.
      apply (Permutation_in _ (Permutation_sym (Hperm _))) in Hr.
      apply filter_In in Hr as [Hr _]. now apply Hnv.
    + intros toolName limit r Hr. unfold GetToolExecutionsByTool in Hr.
      simpl in Hr. apply In_applyLimit in Hr.
      apply (Permutation_in _ (Permutation_sym (Hperm _))) in Hr.
      apply filter_In in Hr as [Hr _]. now apply Hnv.
    + intros r Hr Hrid.
      rewrite (retired_id_not_live d s'' Hs'' Hd'' r Hr); [reflexivity|].
      congruence.
Qed.

Lemma soft_delete_excludes_record_witness :
  GetToolExecution (fst (DeleteToolExecution twoInTurn 3000 1)) 1
  = (None, Some ErrRecordNotFound).
Proof.
  refine (proj1 (proj2
            (soft_delete_excludes_record concrete.sortDesc
               [Create 1000 (submitted "nikto");
                Create 2000 (submitted "wapiti")] 3000 1
               sortDesc_orders _))).
  eexists. split; [vm_compute; left; reflexivity|reflexivity].
Defined.

End LedgerSoftDeleteClaim.

(** ** The history operation *)
Section History.
Import models storage history.
Variable E : SqlEngine.
Variable marshalListing : Z -> Z -> Z -> list ToolExecution -> string.
Variable marshalExecution : option ToolExecution -> string.

Lemma applyLimit_length {A} (limit : Z) (l : list A) :
  0 < limit -> len (applyLimit limit l) <= limit.
Proof.
  intros H. unfold applyLimit, len.
  destruct (0 <? limit) eqn:E0; [|apply Z.ltb_ge in E0; lia].
  rewrite length_firstn. lia.
Qed.

(** C10: a [list] request with [Limit = 0] is answered with the listing
    the ledger gives for a limit of ten, which holds at most ten
    executions and is reported with [limit = 10]; and a request whose
    [Limit] exceeds 100 is refused by validation, whatever its action,
    without touching the ledger. *)
Theorem history_list_defaults_to_ten
    (store : SQLiteStorage) (now : Z) (input : Input) :
  (Action input = "list" -> Limit input = 0 -> 0 <= Offset input ->
   let listing := GetToolExecutions E store 10 (Offset input) in
   let executions := fst (fst listing) in
   let total := snd (fst listing) in
   HistoryHandler E marshalListing marshalExecution store now input
   = (store,
      textResult (marshalListing total 10 (Offset input) executions),
      None) /\
   len executions <= 10) /\
  (100 < Limit input ->
   exists v,
     validator_Struct input = Some v /\
     HistoryHandler E marshalListing marshalExecution store now input
     = (store, None, Some ("validation error: " ++ v))).
Proof.
  split.
  - intros Hact Hlim Hoff listing executions total.
    split.
    + unfold HistoryHandler, validator_Struct, fieldErrors.
      rewrite Hact, Hlim. simpl.
      destruct (Offset input <? 0) eqn:E0; [apply Z.ltb_lt in E0; lia|].
      reflexivity.
    + unfold executions, listing, GetToolExecutions. simpl.
      apply applyLimit_length. lia.
  - intros Hlim.
    assert (Hv : exists v, validator_Struct input = Some v).
    { unfold validator_Struct.
      destruct (fieldErrors input) as [|e errs] eqn:Ef; [|eauto].
      exfalso. unfold fieldErrors in Ef.
      apply app_eq_nil in Ef as [_ Ef]. apply app_eq_nil in Ef as [Ef _].
      destruct (Limit input <? 0); [discriminate|].
      destruct (100 <? Limit input) eqn:E1; [discriminate|].
      apply Z.ltb_ge in E1. lia. }
    destruct Hv as [v Hv]. exists v. split; [exact Hv|].
    unfold HistoryHandler. rewrite Hv. reflexivity.
Qed.

End History.

Section HistoryExamples.
Import models storage history.

(** A listing request that leaves the limit out. *)
Definition listAll : Input :=
  {| Action := "list"; ID := 0; Limit := 0; Offset := 0 |}.

(** Twelve executions, the clock advancing by one between them. *)
Definition twelve : SQLiteStorage :=
  performAll empty
    (map (fun i => Create (1000 + Z.of_nat i) (submitted "nikto")) (seq 0 12)).

Lemma history_list_defaults_to_ten_witness :
  len (fst (fst (GetToolExecutions concrete.sortDesc twelve 10
                   (Offset listAll)))) <= 10.
Proof.
  refine (proj2 (proj1 (history_list_defaults_to_ten concrete.sortDesc
                          (fun _ _ _ _ => "") (fun _ => "") twelve 0 listAll)
                   _ _ _)).
  - reflexivity.
  - reflexivity.
  - simpl. lia.
Defined.

End HistoryExamples.

(** ** The orchestrator on the scanners of the test suite *)
Section OrchestratorExamples.
Import fullscan.

Definition mockScanner (name : string) (available : bool)
    (scanOutput : string) (scanError : error) : tools.Scanner :=
  {| tools.Name := name;
     tools.IsAvailable := available;
     tools.Scan := fun _ => {| tools.Output := scanOutput;
                               tools.Error := scanError |} |}.

(** The scanners of [TestRegister_SomeScannersAvailable]. *)
Definition mock1 : tools.Scanner := mockScanner "mock1" true "" None.
Definition mock2 : tools.Scanner := mockScanner "mock2" false "" None.
Definition mock3 : tools.Scanner := mockScanner "mock3" true "" None.

Definition someAvailable : Tool := {| scanners := [mock1; mock2; mock3] |}.

Definition noServerTools : server.Server := {| server.registered := [] |}.

Definition onLocalhost : tools.ScanParams :=
  {| tools.Host := "localhost"; tools.Port := 80; tools.Vhost := "" |}.

Lemma fan_out_one_record_per_available_scanner_witness :
  Register someAvailable noServerTools
  = ({| scanners := [mock1; mock3] |},
     {| server.registered := ["full_scan"] |}, None).
Proof.
  refine (proj1 (proj2 (fan_out_one_record_per_available_scanner
                          someAvailable noServerTools onLocalhost) _)).
  reflexivity.
Defined.

(** The scanner and the input of [TestFullScanHandler_WithScannerError]. *)
Definition failing : Tool :=
  {| scanners := [mockScanner "mock1" true "partial output"
                              (Some "scan failed")] |}.

Definition localhost80 : Input :=
  {| Host := "localhost"; Port := 80; Vhost := "";
     MaxLines := 0; Offset := 0 |}.


(** The report the handler returns in that test when the scan took a
    second and a half: the [FAILED] line, the error and the partial
    output are all there. *)
Example full_scan_with_scanner_error :
  report concrete.asciiLib 1793502245 localhost80
         (runInOrder failing (scanParams localhost80) [1500000000])
  = Returns
      (Some {| tools.Content :=
          [separator ++ nl
           ++ "                    FULL SECURITY SCAN REPORT" ++ nl
           ++ separator ++ nl
           ++ "Target: http://localhost:80" ++ nl
           ++ "Date: Sun, 01 Nov 2026 03:04:05 UTC" ++ nl
           ++ separator ++ nl ++ nl
           ++ "SCAN SUMMARY" ++ nl
           ++ dashLine ++ nl
           ++ "  mock1     : FAILED (1.50s)" ++ nl
           ++ nl
           ++ "Total scanners: 1 | Successful: 0 | Failed: 1" ++ nl
           ++ "Total scan time: 1.50s" ++ nl
           ++ nl
           ++ separator ++ nl
           ++ "                    MOCK1 RESULTS" ++ nl
           ++ separator ++ nl ++ nl
           ++ "ERROR: scan failed" ++ nl ++ nl
           ++ "Output:" ++ nl
           ++ "partial output" ++ nl
           ++ nl
           ++ separator ++ nl
           ++ "                    END OF REPORT" ++ nl
           ++ separator ++ nl] |})
      None.
Proof. vm_compute. reflexivity. Qed.

End OrchestratorExamples.

(* ================================================================== *)
(** * Part III: further properties of the code *)
(* ================================================================== *)

(** ** More on the pagination window *)
Section PaginationMore.
Import fullscan.

Lemma Join_cons_char (c : ascii) (h : string) (t : list string) :
  Join (String c h :: t) nl = String c (Join (h :: t) nl).
Proof. destruct t; reflexivity. Qed.

(** Joining what [Split] gave restores the text. *)
Lemma Join_Split (s : string) : Join (Split s) nl = s.
Proof.
  induction s as [|c rest IH]; [reflexivity|]. simpl Split.
  destruct (Ascii.eqb c newline) eqn:E.
  - apply Ascii.eqb_eq in E. subst c.
    pose proof (Split_not_nil rest) as Hne.
    destruct (Split rest) as [|h t]; [contradiction|].
    change (Join ("" :: h :: t) nl) with ("" ++ nl ++ Join (h :: t) nl).
    rewrite IH. reflexivity.
  - pose proof (Split_not_nil rest) as Hne.
    destruct (Split rest) as [|h t]; [contradiction|].
    rewrite Join_cons_char, IH. reflexivity.
Qed.

(** The limit in force: [MaxDefaultLines] stands in for zero. *)
Definition effectiveLimit (maxLines : Z) : Z :=
  if maxLines =? 0 then types.MaxDefaultLines else maxLines.

(** X1: a text with no more lines than the limit in force, asked for
    without an offset, comes back byte for byte, with no banner. *)
Theorem pagination_returns_short_text_verbatim
    (output : string) (maxLines offset : Z) :
  offset <= 0 ->
  len (Split output) <= effectiveLimit maxLines ->
  applyPagination output maxLines offset = Some output.
Proof.
  intros Hoff Hfit. unfold effectiveLimit in Hfit.
  unfold applyPagination, paginationWindow.
  destruct (0 <? offset) eqn:E0; [apply Z.ltb_lt in E0; lia|].
  simpl andb. cbv iota.
  destruct ((if maxLines =? 0 then types.MaxDefaultLines else maxLines)
            <? len (Split output)) eqn:E1; [apply Z.ltb_lt in E1; lia|].
  simpl. now rewrite Join_Split.
Qed.

Lemma pagination_returns_short_text_verbatim_witness :
  applyPagination threeLines 0 0 = Some threeLines.
Proof.
  apply pagination_returns_short_text_verbatim.
  - lia.
  - vm_compute. congruence.
Defined.

(** A window opened inside a slice has the length asked for. *)
Lemma slice_some {A} (l : list A) (lo hi : Z) :
  0 <= lo <= hi -> hi <= len l ->
  slice l lo hi = Some (firstn (Z.to_nat (hi - lo)) (skipn (Z.to_nat lo) l)).
Proof.
  intros [H0 H1] H2. unfold slice.
  destruct (0 <=? lo) eqn:Ea; [|apply Z.leb_gt in Ea; lia].
  destruct (lo <=? hi) eqn:Eb; [|apply Z.leb_gt in Eb; lia].
  destruct (hi <=? len l) eqn:Ec; [|apply Z.leb_gt in Ec; lia].
  reflexivity.
Qed.

Lemma slice_inv {A} (l w : list A) (lo hi : Z) :
  slice l lo hi = Some w ->
  w = firstn (Z.to_nat (hi - lo)) (skipn (Z.to_nat lo) l)
  /\ 0 <= lo <= hi /\ hi <= len l.
Proof.
  intros H. pose proof (slice_len l w lo hi H) as (_ & Hb & Hc).
  rewrite slice_some in H by assumption. injection H as <-. auto.
Qed.

(** Go's sum of two non-negative ints is the plain sum or is negative. *)
Lemma int_add_nonneg (a b : Z) :
  in_int a -> in_int b -> 0 <= a -> 0 <= b ->
  int_add a b = a + b \/ int_add a b < 0.
Proof.
  unfold in_int, int_min, int_max, int_add, wrap. intros Ha Hb Ha0 Hb0.
  destruct (Z_le_gt_dec (a + b) (2 ^ 63 - 1)) as [Hle|Hgt].
  - left. rewrite Z.mod_small; lia.
  - right.
    replace (a + b + 2 ^ 63) with ((a + b - 2 ^ 63) + 1 * 2 ^ 64) by lia.
    rewrite Z.mod_add by lia. rewrite Z.mod_small; lia.
Qed.

(** X2: for a limit that is not negative, a window that is returned is
    never empty and never longer than the limit in force, and the total
    reported is the number of lines of the text.  For an offset inside
    the text, the window ends within the text, and [truncated] is set
    exactly when lines remain after it. *)
Theorem pagination_window_is_bounded
    (output : string) (maxLines offset : Z)
    (window : list string) (truncated : bool) (total : Z) :
  in_int maxLines -> in_int offset -> 0 <= maxLines ->
  paginationWindow output maxLines offset = Some (window, truncated, total) ->
  1 <= len window <= effectiveLimit maxLines /\
  total = len (Split output) /\
  (0 <= offset < total ->
   offset + len window <= total /\
   (truncated = true <-> offset + len window < total)).
Proof.
  intros Hm Ho Hm0 Hwin.
  pose proof (len_Split_pos output) as Hpos.
  revert Hwin. unfold paginationWindow, effectiveLimit.
  set (m := if maxLines =? 0 then types.MaxDefaultLines else maxLines).
  assert (Hmr : 1 <= m /\ in_int m).
  { unfold m, types.MaxDefaultLines.
    destruct (maxLines =? 0) eqn:E.
    - unfold in_int, int_min, int_max. lia.
    - apply Z.eqb_neq in E. split; [lia|assumption]. }
  destruct Hmr as [Hm1 Hmi].
  destruct ((0 <? offset) && (offset <? len (Split output))) eqn:E1.
  - apply andb_prop in E1 as [Ea Eb]. apply Z.ltb_lt in Ea, Eb.
    destruct (int_add offset m <? len (Split output)) eqn:E2.
    + apply Z.ltb_lt in E2.
      destruct (slice _ _ _) as [w|] eqn:Hs; [|discriminate].
      simpl. intros [= <- <- <-].
      apply slice_len in Hs as (Hl & Hb & Hc).
      assert (Hadd : int_add offset m = offset + m \/ int_add offset m < 0)
        by (apply int_add_nonneg; auto; lia).
      destruct Hadd as [Hadd|Hneg]; [rewrite Hadd in *|lia].
      repeat split; intros; try lia; try discriminate.
    + apply Z.ltb_ge in E2.
      destruct (slice _ _ _) as [w|] eqn:Hs; [|discriminate].
      simpl. intros [= <- <- <-].
      apply slice_len in Hs as (Hl & Hb & Hc).
      assert (Hadd : int_add offset m = offset + m \/ int_add offset m < 0)
        by (apply int_add_nonneg; auto; lia).
      destruct Hadd as [Hadd|Hneg]; [rewrite Hadd in *|lia].
      repeat split; intros; try lia; try discriminate.
  - destruct (m <? len (Split output)) eqn:E2.
    + apply Z.ltb_lt in E2.
      destruct (slice _ _ _) as [w|] eqn:Hs; [|discriminate].
      simpl. intros [= <- <- <-].
      apply slice_len in Hs as (Hl & Hb & Hc).
      apply andb_false_iff in E1.
      destruct E1 as [E1|E1]; apply Z.ltb_ge in E1;
        repeat split; intros; try lia; try discriminate.
    + apply Z.ltb_ge in E2. intros [= <- <- <-].
      apply andb_false_iff in E1.
      destruct E1 as [E1|E1]; apply Z.ltb_ge in E1;
        repeat split; intros; try lia; try discriminate.
Qed.

Lemma pagination_window_is_bounded_witness :
  1 <= len (firstn 10 (skipn 20 (letterLines 50))) <= effectiveLimit 10.
Proof.
  refine (proj1 (pagination_window_is_bounded fiftyLines 10 20
                   (firstn 10 (skipn 20 (letterLines 50))) true 50 _ _ _ _));
    try (unfold in_int, int_min, int_max; lia).
  vm_compute. reflexivity.
Defined.

End PaginationMore.

Section PaginationPages.
Import fullscan.

Lemma firstn_then_firstn {A} (a b : nat) (l : list A) :
  (firstn a l ++ firstn b (skipn a l))%list = firstn (a + b) l.
Proof.
  revert l. induction a as [|a IH]; intros l; [reflexivity|].
  destruct l as [|x l]; simpl.
  - now rewrite firstn_nil.
  - now rewrite IH.
Qed.

Lemma effectiveLimit_range (maxLines : Z) :
  in_int maxLines -> 0 <= maxLines ->
  1 <= effectiveLimit maxLines /\ in_int (effectiveLimit maxLines).
Proof.
  intros Hi H0. unfold effectiveLimit, types.MaxDefaultLines.
  destruct (maxLines =? 0) eqn:E.
  - unfold in_int, int_min, int_max. lia.
  - apply Z.eqb_neq in E. split; [lia|assumption].
Qed.

(** A window inside the text, by case on whether lines remain. *)
Lemma window_inside (output : string) (maxLines offset : Z) :
  in_int maxLines -> 0 <= maxLines ->
  0 <= offset < len (Split output) ->
  len (Split output) + effectiveLimit maxLines <= int_max ->
  let lines := Split output in
  let m := effectiveLimit maxLines in
  paginationWindow output maxLines offset
  = if offset + m <? len lines
    then Some (firstn (Z.to_nat m) (skipn (Z.to_nat offset) lines),
               true, len lines)
    else Some (skipn (Z.to_nat offset) lines, false, len lines).
Proof.
  intros Hi H0 Ho Hfit. cbv zeta.
  destruct (effectiveLimit_range maxLines Hi H0) as [Hm1 Hmi].
  unfold paginationWindow. fold (effectiveLimit maxLines).
  set (m := effectiveLimit maxLines) in *. set (lines := Split output) in *.
  unfold int_max in Hfit.
  destruct (Z.eq_dec offset 0) as [->|Hne].
  - simpl andb. cbv iota. simpl (0 + m). simpl skipn.
    destruct (m <? len lines) eqn:E.
    + apply Z.ltb_lt in E. rewrite slice_head by lia. reflexivity.
    + reflexivity.
  - replace (0 <? offset) with true by (symmetry; apply Z.ltb_lt; lia).
    replace (offset <? len lines) with true by (symmetry; apply Z.ltb_lt; lia).
    simpl andb. cbv iota.
    rewrite int_add_exact by (unfold in_int, int_min, int_max in *; lia).
    destruct (offset + m <? len lines) eqn:E.
    + apply Z.ltb_lt in E. rewrite slice_some by lia. simpl.
      now replace (offset + m - offset) with m by lia.
    + apply Z.ltb_ge in E. rewrite slice_some by lia. simpl.
      rewrite firstn_all2; [reflexivity|].
      rewrite length_skipn. unfold len in *. lia.
Qed.

(** X3: paging forward as the banner suggests loses nothing and repeats
    nothing.  When a window opened inside the text is truncated, the
    window opened at the offset just after it (the banner's last line) is
    returned as well, and the two windows, one after the other, are the
    lines of the text from the first offset on. *)
Theorem pagination_next_page_follows
    (output : string) (maxLines offset : Z)
    (window : list string) (total : Z) :
  in_int maxLines -> 0 <= maxLines ->
  0 <= offset < len (Split output) ->
  len (Split output) + effectiveLimit maxLines <= int_max ->
  paginationWindow output maxLines offset = Some (window, true, total) ->
  exists window' truncated',
    paginationWindow output maxLines (offset + len window)
    = Some (window', truncated', total) /\
    window' <> [] /\
    (window ++ window')%list
    = firstn (List.length window + List.length window')
             (skipn (Z.to_nat offset) (Split output)).
Proof.
  intros Hi H0 Ho Hfit Hwin.
  destruct (effectiveLimit_range maxLines Hi H0) as [Hm1 Hmi].
  rewrite (window_inside output maxLines offset Hi H0 Ho Hfit) in Hwin.
  cbv zeta in Hwin.
  set (m := effectiveLimit maxLines) in *. set (lines := Split output) in *.
  destruct (offset + m <? len lines) eqn:E; [|discriminate].
  apply Z.ltb_lt in E. injection Hwin as <- <-.
  assert (Hlen : List.length (firstn (Z.to_nat m) (skipn (Z.to_nat offset) lines))
                 = Z.to_nat m).
  { rewrite length_firstn, length_skipn. unfold len in *. lia. }
  assert (Hnext : offset + len (firstn (Z.to_nat m)
                                  (skipn (Z.to_nat offset) lines))
                  = offset + m).
  { unfold len at 1. rewrite Hlen. lia. }
  rewrite Hnext.
  rewrite (window_inside output maxLines (offset + m) Hi H0) by (fold lines; lia).
  cbv zeta. fold m. fold lines.
  assert (Hskip : skipn (Z.to_nat (offset + m)) lines
                  = skipn (Z.to_nat m) (skipn (Z.to_nat offset) lines)).
  { rewrite skipn_skipn. f_equal. lia. }
  destruct (offset + m + m <? len lines) eqn:E'.
  - apply Z.ltb_lt in E'. eexists. eexists. split; [reflexivity|]. split.
    + intros Hnil. apply (f_equal (@List.length string)) in Hnil.
      rewrite length_firstn, length_skipn in Hnil. simpl in Hnil.
      unfold len in *. lia.
    + rewrite Hlen, Hskip.
      replace (List.length (firstn (Z.to_nat m)
                 (skipn (Z.to_nat m) (skipn (Z.to_nat offset) lines))))
        with (Z.to_nat m)
        by (rewrite length_firstn, !length_skipn; unfold len in *; lia).
      apply firstn_then_firstn.
  - eexists. eexists. split; [reflexivity|]. split.
    + intros Hnil. apply (f_equal (@List.length string)) in Hnil.
      rewrite length_skipn in Hnil. simpl in Hnil. unfold len in *. lia.
    + rewrite Hlen, Hskip. rewrite firstn_skipn.
      rewrite firstn_all2; [reflexivity|].
      rewrite !length_skipn. unfold len in *. lia.
Qed.

Lemma pagination_next_page_follows_witness :
  exists window' truncated',
    paginationWindow fiftyLines 10
      (20 + len (firstn 10 (skipn 20 (letterLines 50))))
    = Some (window', truncated', 50) /\
    window' <> [] /\
    (firstn 10 (skipn 20 (letterLines 50)) ++ window')%list
    = firstn (List.length (firstn 10 (skipn 20 (letterLines 50)))
              + List.length window')
             (skipn (Z.to_nat 20) (Split fiftyLines)).
Proof.
  apply (pagination_next_page_follows fiftyLines 10 20);
    try (unfold in_int, int_min, int_max; lia).
  - vm_compute. split; congruence.
  - vm_compute. congruence.
  - vm_compute. reflexivity.
Defined.

End PaginationPages.

(** ** More on the merged report *)
Section MergeMore.
Import fullscan.
Variable L : GoLib.

(** [x] is the beginning of [s]. *)
Definition Prefix (x s : string) : Prop := exists post, s = x ++ post.

Lemma Prefix_self (x rest : string) : Prefix x (x ++ rest).
Proof. now exists rest. Qed.

Lemma Prefix_app (a x s : string) : Prefix x s -> Prefix (a ++ x) (a ++ s).
Proof. intros [post ->]. exists post. now rewrite string_app_assoc. Qed.

Lemma Prefix_Contains (x s : string) : Prefix x s -> Contains s x.
Proof. intros [post ->]. now exists "", post. Qed.

Definition succeeded (r : scannerResult) : bool :=
  match Error r with None => true | Some _ => false end.

Definition durationSum (rs : list scannerResult) : Z :=
  fold_right (fun r acc => Duration r + acc) 0 rs.

Lemma summary_counts (rs : list scannerResult) (acc : summaryAcc) :
  0 <= successCount acc -> 0 <= failCount acc -> 0 <= totalDuration acc ->
  successCount acc + failCount acc + len rs <= int_max ->
  Forall (fun r => 0 <= Duration r) rs ->
  totalDuration acc + durationSum rs <= int_max ->
  let final := fold_left (summaryStep L) rs acc in
  successCount final = successCount acc + len (filter succeeded rs) /\
  failCount final
  = failCount acc + len (filter (fun r => negb (succeeded r)) rs) /\
  totalDuration final = totalDuration acc + durationSum rs.
Proof.
  revert acc. induction rs as [|r rs IH]; intros acc Hs Hf Hd Hn Hpos Hsum.
  - simpl. unfold len. simpl. lia.
  - inversion Hpos as [|? ? Hr Hpos']; subst. simpl in Hsum.
    assert (Hds : 0 <= durationSum rs).
    { clear -Hpos'. induction Hpos'; simpl; lia. }
    assert (Hl : len (r :: rs) = 1 + len rs)
      by (unfold len; cbn [List.length]; lia).
    rewrite Hl in Hn. pose proof (len_nonneg rs) as Hlr.
    unfold int_max in *.
    set (one := if succeeded r then 1 else 0).
    assert (Hstep : summaryStep L acc r
                    = {| text := text acc ++ summaryLine L r;
                         totalDuration := totalDuration acc + Duration r;
                         successCount := successCount acc + one;
                         failCount := failCount acc + (1 - one) |}).
    { unfold summaryStep, one, succeeded.
      destruct (Error r);
        rewrite !int_add_exact by (unfold in_int, int_min, int_max; lia);
        f_equal; lia. }
    simpl fold_left. cbv zeta. rewrite Hstep.
    assert (Hone : 0 <= one <= 1) by (unfold one; destruct (succeeded r); lia).
    specialize (IH {| text := text acc ++ summaryLine L r;
                      totalDuration := totalDuration acc + Duration r;
                      successCount := successCount acc + one;
                      failCount := failCount acc + (1 - one) |}).
    cbv zeta in IH. cbn [successCount failCount totalDuration] in IH.
    destruct IH as (I1 & I2 & I3); [lia|lia|lia|lia|assumption|lia|].
    rewrite I1, I2, I3. simpl filter. simpl durationSum. unfold one.
    destruct (succeeded r); simpl negb; cbv iota;
      unfold len; cbn [List.length]; lia.
Qed.

Lemma filter_split_len {A} (f : A -> bool) (l : list A) :
  len (filter f l) + len (filter (fun x => negb (f x)) l) = len l.
Proof.
  unfold len. induction l as [|x l IH]; [reflexivity|].
  cbn [filter]. destruct (f x); cbn [negb List.length]; lia.
Qed.

(** X4: the report states how many records were merged, how many of
    them carry no error and how many carry one, and the sum of their
    durations; the two counts add up to the number of records. *)
Theorem merged_report_totals
    (now : Z) (targetURL : string) (results : list scannerResult) :
  len results <= int_max ->
  Forall (fun r => 0 <= Duration r) results ->
  durationSum results <= int_max ->
  let ok := len (filter succeeded results) in
  let bad := len (filter (fun r => negb (succeeded r)) results) in
  ok + bad = len results /\
  Contains (mergeResults L now targetURL results)
    ("Total scanners: " ++ Itoa (len results)
     ++ " | Successful: " ++ Itoa ok
     ++ " | Failed: " ++ Itoa bad ++ nl
     ++ "Total scan time: " ++ fmt_seconds L (durationSum results)
     ++ "s" ++ nl).
Proof.
  intros Hn Hpos Hsum ok bad. split.
  - apply filter_split_len.
  - unfold mergeResults, reportBody.
    pose proof (summary_counts results
                  {| text := ""; totalDuration := 0;
                     successCount := 0; failCount := 0 |}) as Hc.
    cbv zeta in Hc. cbn [successCount failCount totalDuration] in Hc.
    destruct Hc as (H1 & H2 & H3); [lia|lia|lia|lia|assumption|lia|].
    rewrite H1, H2, H3. rewrite !Z.add_0_l. fold ok. fold bad.
    do 13 apply Contains_app_r.
    apply Prefix_Contains. repeat apply Prefix_app. apply Prefix_self.
Qed.

End MergeMore.

Section MergeMoreExamples.
Import fullscan.

Lemma merged_report_totals_witness :
  Contains (mergeResults concrete.asciiLib 0 "http://localhost:80" twoFindings)
    ("Total scanners: 2 | Successful: 2 | Failed: 0" ++ nl
     ++ "Total scan time: 3.00s" ++ nl).
Proof.
  refine (proj2 (merged_report_totals concrete.asciiLib 0
                   "http://localhost:80" twoFindings _ _ _)).
  - vm_compute. congruence.
  - repeat constructor; simpl; lia.
  - vm_compute. congruence.
Defined.

End MergeMoreExamples.

Section MergeSuccess.
Import fullscan.
Variable L : GoLib.

(** X5: every record without an error has its [SUCCESS] line in the
    summary and a section of its own, under the upper-cased name, that
    holds the output with the surrounding white space trimmed. *)
Theorem merged_report_covers_successes
    (now : Z) (targetURL : string) (results : list scannerResult)
    (r : scannerResult) :
  List.In r results -> Error r = None ->
  let merged := mergeResults L now targetURL results in
  Contains merged
    ("  " ++ fmt_pad10 L (Name r) ++ ": SUCCESS ("
     ++ fmt_seconds L (Duration r) ++ "s)" ++ nl) /\
  Contains merged
    (separator ++ nl
     ++ "                    " ++ strings_ToUpper L (Name r) ++ " RESULTS" ++ nl
     ++ separator ++ nl ++ nl
     ++ strings_TrimSpace L (Output r) ++ nl ++ nl).
Proof.
  intros Hin Herr merged. split.
  - pose proof (merged_has_summary_line L now targetURL results r Hin) as Hc.
    unfold summaryLine, statusOf in Hc. now rewrite Herr in Hc.
  - pose proof (merged_has_section L now targetURL results r Hin) as Hc.
    unfold resultSection in Hc. rewrite Herr in Hc.
    destruct Hc as (pre & post & Hc). exists pre, post. unfold merged.
    rewrite Hc. repeat rewrite string_app_assoc. reflexivity.
Qed.

(** No step can be taken when there is no goroutine and nothing in the
    channel. *)
Lemma no_scanner_no_step (params : tools.ScanParams)
    (res : list scannerResult) (calls : list (string * tools.ScanParams))
    (st : runState) :
  steps params {| tasks := []; resultsChan := []; results := res;
                  scanCalls := calls |} st ->
  st = {| tasks := []; resultsChan := []; results := res;
          scanCalls := calls |}.
Proof.
  intros H. inversion H as [|? st2 ? Hstep _]; subst; [reflexivity|].
  inversion Hstep; subst;
    match goal with
    | H : (_ ++ _ :: _)%list = [] |- _ =>
        symmetry in H; now apply app_cons_not_nil in H
    | H : [] = (_ ++ _ :: _)%list |- _ => now apply app_cons_not_nil in H
    end.
Qed.

(** X6: a tool that holds no scanner does not refuse a request that
    passes validation: the handler has one outcome, the pagination of
    the report of no record, whose summary counts zero scanners, and
    (the report fitting) it returns that text with a nil error. *)
Theorem full_scan_without_scanners_reports_nothing
    (t : Tool) (now : Z) (input : Input) :
  scanners t = [] ->
  validator_Struct L input = None ->
  let merged := mergeResults L now (targetURL input) [] in
  FullScanHandler L t now input (report L now input []) /\
  (forall out, FullScanHandler L t now input out ->
               out = report L now input []) /\
  (fitsInt merged ->
   exists resultText,
     report L now input []
     = Returns (Some {| tools.Content := [resultText] |}) None) /\
  Contains merged ("Total scanners: 0 | Successful: 0 | Failed: 0" ++ nl).
Proof.
  intros Hnone Hvalid merged.
  assert (Hrun : forall final,
             runScannersParallel t (scanParams input) final ->
             results final = []).
  { intros final [Hsteps _]. unfold initial in Hsteps. rewrite Hnone in Hsteps.
    simpl in Hsteps. apply no_scanner_no_step in Hsteps. now subst. }
  assert (Hex : runScannersParallel t (scanParams input) (initial t)).
  { split; [constructor|]. unfold terminal, initial. rewrite Hnone.
    split; reflexivity. }
  split; [|split; [|split]].
  - pose proof (handler_report L t now input (initial t) Hvalid Hex) as H.
    now rewrite (Hrun _ Hex) in H.
  - intros out H. inversion H as [v Hv|final Hv Hfinal]; [congruence|].
    now rewrite (Hrun _ Hfinal).
  - intros Hfit.
    destruct (validated_bounds L input Hvalid) as (_ & Hmax & _).
    destruct (applyPagination_total merged (MaxLines input) (Offset input)
                Hmax Hfit) as [resultText Htext].
    exists resultText. unfold report. fold merged. now rewrite Htext.
  - unfold merged, mergeResults, reportBody. simpl fold_left.
    cbn [text successCount failCount totalDuration].
    do 13 apply Contains_app_r.
    apply Prefix_Contains. exists ("Total scan time: "
       ++ fmt_seconds L 0 ++ "s" ++ nl ++ nl ++ separator ++ nl
       ++ "                    END OF REPORT" ++ nl ++ separator ++ nl).
    reflexivity.
Qed.

End MergeSuccess.

Section MergeSuccessExamples.
Import fullscan.

Lemma merged_report_covers_successes_witness :
  Contains (mergeResults concrete.asciiLib 0 "http://localhost:80" twoFindings)
    ("  scanner1  : SUCCESS (1.00s)" ++ nl).
Proof.
  refine (proj1 (merged_report_covers_successes concrete.asciiLib 0
                   "http://localhost:80" twoFindings
                   {| Name := "scanner1"; Output := "findings from scanner1";
                      Duration := 1000000000; Error := None |} _ _)).
  - left. reflexivity.
  - reflexivity.
Defined.

Lemma full_scan_without_scanners_reports_nothing_witness :
  FullScanHandler concrete.asciiLib {| scanners := [] |} 0 localhost80
    (report concrete.asciiLib 0 localhost80 []).
Proof.
  refine (proj1 (full_scan_without_scanners_reports_nothing
                   concrete.asciiLib {| scanners := [] |} 0 localhost80 _ _));
    reflexivity.
Defined.

End MergeSuccessExamples.

(** ** More on the interceptor *)
Section InterceptorMore.
Import tools.
Context {In Out : Type}.
Variable json_Marshal_In : In -> string.
Variable json_Marshal_Result : CallToolResult -> string.

(** X7: the record holds an output only for a call that returned no
    error and a result, and then it is the serialised result; a call
    that returned an error leaves the output empty even when a result
    came with the error.  So a record never holds both an output and an
    error message. *)
Theorem interceptor_keeps_output_for_successes_only
    (toolName : string) (handler : @Handler In Out)
    (startTime endTime : Z) (req : CallToolRequest) (input : In) :
  let exec := logged json_Marshal_In json_Marshal_Result toolName handler
                     startTime endTime req input in
  let result := fst (fst (handler req input)) in
  let err := snd (handler req input) in
  (err <> None -> models.OutputJSON exec = "") /\
  (forall r, err = None -> result = Some r ->
             models.OutputJSON exec = json_Marshal_Result r) /\
  (err = None -> result = None -> models.OutputJSON exec = "") /\
  (models.OutputJSON exec <> "" ->
   models.Success exec = true /\ models.ErrorMessage exec = "").
Proof.
  unfold logged, WrapToolHandler.
  destruct (handler req input) as [[result output] [e|]]; simpl.
  - repeat split; try congruence; intros; congruence.
  - destruct result as [r|]; repeat split; try congruence;
      intros; congruence.
Qed.

End InterceptorMore.

Section InterceptorMoreExamples.
Import tools.

(** A handler that returns a result together with an error. *)
Definition resultAndError : @Handler unit unit :=
  fun _ _ => (Some {| Content := ["partial"] |}, tt, Some "scan failed").

Lemma interceptor_keeps_output_for_successes_only_witness :
  models.OutputJSON
    (logged (fun _ => "null") (fun _ => "{}") "nikto" resultAndError
            0 1500000 {| Session := None |} tt) = "".
Proof.
  refine (proj1 (interceptor_keeps_output_for_successes_only
                   (fun _ => "null") (fun _ => "{}") "nikto" resultAndError
                   0 1500000 {| Session := None |} tt) _).
  discriminate.
Defined.

End InterceptorMoreExamples.

(** ** The single-scanner tools *)
Section Nikto.
Import fullscan.
Variable L : GoLib.

Lemma validated_bounds_nikto (input : nikto.Input) :
  nikto.validator_Struct L input = None ->
  0 <= nikto.MaxLines input <= 100000 /\ 0 <= nikto.Offset input.
Proof.
  unfold nikto.validator_Struct.
  destruct (nikto.fieldErrors L input) as [|e errs] eqn:E;
    [intros _|discriminate].
  unfold nikto.fieldErrors in E.
  apply app_eq_nil in E as [_ E]. apply app_eq_nil in E as [_ E].
  apply app_eq_nil in E as [Em Eo].
  apply checkMinMax_ok in Em, Eo. lia.
Qed.

(** The command line of a scan asked through the handler. *)
Definition niktoCommand (input : nikto.Input) : list string :=
  (["-host"; nikto.hostOf input; "-port"; Itoa (nikto.portOf input)]
   ++ (if String.eqb (nikto.Vhost input) "" then []
       else ["-vhost"; nikto.Vhost input]))%list.

Definition niktoURL (input : nikto.Input) : string :=
  "http://" ++ JoinHostPort (nikto.hostOf input) (Itoa (nikto.portOf input)).

Lemma nikto_scanArgs (input : nikto.Input) :
  nikto.scanArgs {| tools.Host := nikto.hostOf input;
                    tools.Port := nikto.portOf input;
                    tools.Vhost := nikto.Vhost input |}
  = niktoCommand input.
Proof.
  unfold nikto.scanArgs, niktoCommand. simpl.
  assert (Hh : String.eqb (nikto.hostOf input) "" = false).
  { unfold nikto.hostOf, nikto.defaultHost.
    destruct (String.eqb (nikto.Host input) "") eqn:E; [reflexivity|exact E]. }
  assert (Hp : (nikto.portOf input =? 0) = false).
  { unfold nikto.portOf, nikto.defaultPort.
    destruct (nikto.Port input =? 0) eqn:E; [reflexivity|exact E]. }
  rewrite Hh, Hp.
  destruct (String.eqb (nikto.Vhost input) ""); reflexivity.
Qed.

(** X8: the nikto handler.  An input that fails validation gets the
    validation error.  Otherwise the binary is run with [-host] and
    [-port] always filled in (and [-vhost] only for a non-empty vhost);
    when it fails, the handler returns no result and an error whose text
    carries the failure and, after it, the output the binary did
    produce; when it succeeds, the handler returns (the output fitting)
    a text that starts with the target line, and that is the trimmed
    output right below it when the output has no more lines than the
    limit in force and no offset is asked for. *)
Theorem nikto_handler_outcomes
    (CombinedOutput : list string -> string * error) (input : nikto.Input) :
  (forall v, nikto.validator_Struct L input = Some v ->
             nikto.NiktoHandler L CombinedOutput input
             = Returns None (Some ("validation error: " ++ v))) /\
  (nikto.validator_Struct L input = None ->
   let output := fst (CombinedOutput (niktoCommand input)) in
   (forall e, snd (CombinedOutput (niktoCommand input)) = Some e ->
              nikto.NiktoHandler L CombinedOutput input
              = Returns None
                  (Some ("failed to execute nikto: " ++ e ++ nl
                         ++ "Output: " ++ output))) /\
   (snd (CombinedOutput (niktoCommand input)) = None ->
    fitsInt output ->
    exists resultText,
      nikto.NiktoHandler L CombinedOutput input
      = Returns (Some {| tools.Content := [resultText] |}) None /\
      Prefix ("nikto output for " ++ niktoURL input ++ ":" ++ nl) resultText /\
      (len (Split output) <= effectiveLimit (nikto.MaxLines input) ->
       nikto.Offset input = 0 ->
       resultText = "nikto output for " ++ niktoURL input ++ ":" ++ nl ++ nl
                    ++ strings_TrimSpace L output))).
Proof.
  split.
  - intros v Hv. unfold nikto.NiktoHandler. now rewrite Hv.
  - intros Hvalid output. unfold nikto.NiktoHandler. rewrite Hvalid.
    cbv zeta. unfold nikto.Scan. rewrite nikto_scanArgs. unfold output.
    destruct (CombinedOutput (niktoCommand input)) as [out [e|]];
      cbn [fst snd tools.Error tools.Output].
    + split; [|discriminate]. intros e' [= <-].
      now rewrite !string_app_assoc.
    + split; [discriminate|]. intros _ Hfit.
      destruct (validated_bounds_nikto input Hvalid) as [Hmax Hoff].
      destruct (applyPagination_total out (nikto.MaxLines input)
                  (nikto.Offset input) Hmax Hfit) as [text Htext].
      unfold applyPagination in Htext. unfold nikto.formatOutput.
      fold (niktoURL input).
      destruct (paginationWindow out (nikto.MaxLines input)
                  (nikto.Offset input)) as [[[w tr] n]|] eqn:Hw;
        [|discriminate].
      eexists. split; [reflexivity|]. split.
      * destruct (tr || (0 <? nikto.Offset input));
          rewrite !string_app_assoc;
          repeat apply Prefix_app; apply Prefix_self.
      * intros Hshort Hzero. rewrite Hzero in *.
        revert Hw. unfold paginationWindow. simpl andb. cbv iota.
        fold (effectiveLimit (nikto.MaxLines input)).
        destruct (effectiveLimit (nikto.MaxLines input) <? len (Split out))
          eqn:E; [apply Z.ltb_lt in E; lia|].
        intros [= <- <- <-]. simpl orb. change (0 <? 0) with false.
        cbv iota. rewrite Join_Split. now rewrite !string_app_assoc.
Qed.

End Nikto.

Section NiktoExamples.
Import fullscan.

(** A binary that prints two findings, and one that cannot connect. *)
Definition niktoFinds : list string -> string * error :=
  fun _ => ("+ Server: nginx" ++ nl ++ "+ 1 host(s) tested" ++ nl, None).

Definition niktoFails : list string -> string * error :=
  fun _ => ("+ No web server found", Some "exit status 1").

Definition anyHost : nikto.Input :=
  {| nikto.Vhost := ""; nikto.Host := ""; nikto.Port := 0;
     nikto.MaxLines := 0; nikto.Offset := 0 |}.

Lemma nikto_handler_outcomes_witness :
  nikto.NiktoHandler concrete.asciiLib niktoFails anyHost
  = Returns None
      (Some ("failed to execute nikto: exit status 1" ++ nl
             ++ "Output: + No web server found")).
Proof.
  refine (proj1 (proj2 (nikto_handler_outcomes concrete.asciiLib
                          niktoFails anyHost) _) "exit status 1" _);
    reflexivity.
Defined.

(** The handler on the binary that succeeds. *)
Example nikto_handler_on_findings :
  nikto.NiktoHandler concrete.asciiLib niktoFinds anyHost
  = Returns
      (Some {| tools.Content :=
          ["nikto output for http://localhost:80:" ++ nl ++ nl
           ++ "+ Server: nginx" ++ nl ++ "+ 1 host(s) tested"] |})
      None.
Proof. vm_compute. reflexivity. Qed.

End NiktoExamples.

Section Wapiti.
Import fullscan.
Variable L : GoLib.

(** X9: the wapiti scan and its report file.  When the temporary file
    cannot be created nothing is run and the scan fails with no output.
    Otherwise the binary is run once, told to write its report to that
    file; the file is removed exactly once, as the last thing the scan
    does, whatever happened in between; a failing run is reported with
    the output of the command and the file is not read; after a
    successful run the scan never fails: its output is the report when
    the file can be read and the output of the command when it cannot. *)
Theorem wapiti_scan_removes_its_report_file
    (env : wapiti.Env) (params : tools.ScanParams) :
  let result := wapiti.Scan env params in
  let trace := snd (wapiti.ScanTrace env params) in
  (forall e, wapiti.os_CreateTemp env = inr e ->
     result = {| tools.Output := "";
                 tools.Error := Some ("failed to create temp file: " ++ e) |}
     /\ trace = [wapiti.CreateTemp "wapiti-report-*.txt"]) /\
  (forall path, wapiti.os_CreateTemp env = inl path ->
     let args := wapiti.scanArgs params path in
     (exists rest, args = (["-u"; wapiti.targetOf params; "-f"; "txt";
                            "-o"; path; "--flush-session"] ++ rest)%list) /\
     (exists middle,
         trace = ([wapiti.CreateTemp "wapiti-report-*.txt"; wapiti.Close path;
                   wapiti.Run "wapiti" args] ++ middle
                  ++ [wapiti.Remove path])%list
         /\ (middle = [] \/ middle = [wapiti.ReadFile path])) /\
     (forall out e,
         wapiti.exec_CombinedOutput env args = (out, Some e) ->
         result = {| tools.Output := out;
                     tools.Error := Some ("failed to execute wapiti: " ++ e) |}
         /\ ~ List.In (wapiti.ReadFile path) trace) /\
     (forall out,
         wapiti.exec_CombinedOutput env args = (out, None) ->
         tools.Error result = None /\
         tools.Output result
         = match wapiti.os_ReadFile env path with
           | inl reportData => reportData
           | inr _ => out
           end)).
Proof.
  cbv zeta. unfold wapiti.Scan, wapiti.ScanTrace. split.
  - intros e He. rewrite He. split; reflexivity.
  - intros path Hp. rewrite Hp. split; [|split; [|split]].
    + unfold wapiti.scanArgs.
      destruct (String.eqb (tools.Vhost params) "");
        [exists []; now rewrite app_nil_r|eexists; reflexivity].
    + destruct (wapiti.exec_CombinedOutput env (wapiti.scanArgs params path))
        as [out [e|]].
      * exists []. split; [reflexivity|now left].
      * destruct (wapiti.os_ReadFile env path);
          (exists [wapiti.ReadFile path]; split; [reflexivity|now right]).
    + intros out e He. rewrite He. split; [reflexivity|].
      simpl. intros [H|[H|[H|[H|H]]]]; try discriminate; contradiction.
    + intros out He. rewrite He.
      destruct (wapiti.os_ReadFile env path); split; reflexivity.
Qed.

End Wapiti.

Section WapitiExamples.
Import fullscan.

(** A system on which wapiti runs but leaves no report behind. *)
Definition noReport : wapiti.Env :=
  {| wapiti.os_CreateTemp := inl "/tmp/wapiti-report-1.txt";
     wapiti.exec_CombinedOutput := fun _ => ("scan done", None);
     wapiti.os_ReadFile := fun _ => inr "no such file or directory" |}.

Lemma wapiti_scan_removes_its_report_file_witness :
  tools.Error (wapiti.Scan noReport onLocalhost) = None /\
  tools.Output (wapiti.Scan noReport onLocalhost)
  = match wapiti.os_ReadFile noReport "/tmp/wapiti-report-1.txt" with
    | inl reportData => reportData
    | inr _ => "scan done"
    end.
Proof.
  refine (proj2 (proj2 (proj2
            (proj2 (wapiti_scan_removes_its_report_file noReport onLocalhost)
                   "/tmp/wapiti-report-1.txt" _))) "scan done" _);
    reflexivity.
Defined.

End WapitiExamples.

(** ** The handlers of the repository behind the interceptor *)
Section WrappedHandlers.
Import fullscan.
Variable L : GoLib.

(** The texts of the errors the handlers build are never empty. *)
Definition soundError (err : error) : Prop :=
  forall e, err = Some e -> e <> "".

Lemma app_cons_not_empty (a b : string) (c : ascii) : a ++ String c b <> "".
Proof. destruct a; discriminate. Qed.

Lemma nikto_errors_sound (run : list string -> string * error)
    (input : nikto.Input) (result : option tools.CallToolResult)
    (err : error) :
  nikto.NiktoHandler L run input = Returns result err ->
  soundError err /\ (err <> None -> result = None).
Proof.
  unfold nikto.NiktoHandler, soundError.
  destruct (nikto.validator_Struct L input).
  - intros [= <- <-]. split; [|reflexivity]. intros e [= <-]. discriminate.
  - cbv zeta. destruct (tools.Error _).
    + intros [= <- <-]. split; [|reflexivity]. intros e [= <-].
      apply app_cons_not_empty.
    + destruct (nikto.formatOutput _ _ _ _ _); [|discriminate].
      intros [= <- <-]. split; [discriminate|congruence].
Qed.

Lemma wapiti_errors_sound (env : wapiti.Env)
    (input : wapiti.Input) (result : option tools.CallToolResult)
    (err : error) :
  wapiti.WapitiHandler L env input = Returns result err ->
  soundError err /\ (err <> None -> result = None).
Proof.
  unfold wapiti.WapitiHandler, soundError.
  destruct (wapiti.validator_Struct L input).
  - intros [= <- <-]. split; [|reflexivity]. intros e [= <-]. discriminate.
  - cbv zeta. destruct (tools.Error _).
    + intros [= <- <-]. split; [|reflexivity]. intros e [= <-].
      apply app_cons_not_empty.
    + destruct (wapiti.formatOutput _ _ _ _ _); [|discriminate].
      intros [= <- <-]. split; [discriminate|congruence].
Qed.

Lemma full_scan_errors_sound (t : Tool) (now : Z) (input : Input)
    (result : option tools.CallToolResult) (err : error) :
  FullScanHandler L t now input (Returns result err) ->
  soundError err /\ (err <> None -> result = None).
Proof.
  unfold soundError. intros H.
  inversion H as [v Hv Hout|final Hv Hrun Hout].
  - split; [|reflexivity]. intros e [= <-]. discriminate.
  - unfold report in Hout. destruct (applyPagination _ _ _); [|discriminate].
    injection Hout as <- <-. split; [discriminate|congruence].
Qed.

(** The record of a call that came back with [result] and [err]. *)
Definition recordOfCall {In : Type} (json_Marshal_In : In -> string)
    (json_Marshal_Result : tools.CallToolResult -> string)
    (toolName : string) (result : option tools.CallToolResult) (err : error)
    (startTime endTime : Z) (req : tools.CallToolRequest) (input : In)
  : models.ToolExecution :=
  logged json_Marshal_In json_Marshal_Result toolName
         (fun _ _ => (result, tt, err)) startTime endTime req input.

Lemma sound_record {In : Type} (mi : In -> string)
    (mr : tools.CallToolResult -> string) (toolName : string)
    (result : option tools.CallToolResult) (err : error)
    (startTime endTime : Z) (req : tools.CallToolRequest) (input : In) :
  soundError err ->
  let exec := recordOfCall mi mr toolName result err startTime endTime
                           req input in
  models.ToolName exec = toolName /\
  (models.Success exec = true <-> models.ErrorMessage exec = "") /\
  (models.Success exec = false <-> models.ErrorMessage exec <> "").
Proof.
  unfold soundError, recordOfCall, logged, tools.WrapToolHandler.
  intros Hs. destruct err as [e|]; simpl.
  - specialize (Hs e eq_refl).
    repeat split; try congruence; try discriminate; intros; congruence.
  - repeat split; try congruence; try discriminate; intros; congruence.
Qed.

(** X10: for the three handlers that are registered behind the
    interceptor (nikto, wapiti, full_scan), every call that returns
    yields a record under the tool's name on which [Success] and the
    error message agree: the message is empty exactly when [Success] is
    set.  A call that returns an error returns no result. *)
Theorem wrapped_handlers_keep_record_invariant
    (mr : tools.CallToolResult -> string)
    (startTime endTime : Z) (req : tools.CallToolRequest)
    (result : option tools.CallToolResult) (err : error) :
  (forall (mi : nikto.Input -> string) run input,
      nikto.NiktoHandler L run input = Returns result err ->
      let exec := recordOfCall mi mr nikto.binaryName result err
                               startTime endTime req input in
      (err <> None -> result = None) /\
      models.ToolName exec = "nikto" /\
      (models.Success exec = true <-> models.ErrorMessage exec = "") /\
      (models.Success exec = false <-> models.ErrorMessage exec <> "")) /\
  (forall (mi : wapiti.Input -> string) env input,
      wapiti.WapitiHandler L env input = Returns result err ->
      let exec := recordOfCall mi mr wapiti.binaryName result err
                               startTime endTime req input in
      (err <> None -> result = None) /\
      models.ToolName exec = "wapiti" /\
      (models.Success exec = true <-> models.ErrorMessage exec = "") /\
      (models.Success exec = false <-> models.ErrorMessage exec <> "")) /\
  (forall (mi : Input -> string) t now input,
      FullScanHandler L t now input (Returns result err) ->
      let exec := recordOfCall mi mr toolName result err
                               startTime endTime req input in
      (err <> None -> result = None) /\
      models.ToolName exec = "full_scan" /\
      (models.Success exec = true <-> models.ErrorMessage exec = "") /\
      (models.Success exec = false <-> models.ErrorMessage exec <> "")).
Proof.
  split; [|split].
  - intros mi run input H.
    destruct (nikto_errors_sound run input result err H) as [Hs Hr].
    split; [exact Hr|]. now apply sound_record.
  - intros mi env input H.
    destruct (wapiti_errors_sound env input result err H) as [Hs Hr].
    split; [exact Hr|]. now apply sound_record.
  - intros mi t now input H.
    destruct (full_scan_errors_sound t now input result err H) as [Hs Hr].
    split; [exact Hr|]. now apply sound_record.
Qed.

End WrappedHandlers.

Section WrappedHandlersExamples.
Import fullscan.

Lemma wrapped_handlers_keep_record_invariant_witness :
  models.ToolName
    (recordOfCall (fun _ : nikto.Input => "{}") (fun _ => "{}")
       nikto.binaryName None
       (Some ("failed to execute nikto: exit status 1" ++ nl
              ++ "Output: + No web server found"))
       0 1500000 {| tools.Session := None |} anyHost)
  = "nikto".
Proof.
  refine (proj1 (proj2 (proj1 (wrapped_handlers_keep_record_invariant
            concrete.asciiLib (fun _ => "{}") 0 1500000
            {| tools.Session := None |} None
            (Some ("failed to execute nikto: exit status 1" ++ nl
                   ++ "Output: + No web server found")))
            (fun _ => "{}") niktoFails anyHost _))).
  reflexivity.
Defined.

End WrappedHandlersExamples.

(** ** More on the ledger *)
Section LedgerCreate.
Import models storage.

Lemma find_app_split {A} (f : A -> bool) (l1 l2 : list A) :
  find f (l1 ++ l2)
  = match find f l1 with
    | Some x => Some x
    | None => find f l2
    end.
Proof.
  induction l1 as [|x l1 IH]; simpl; [reflexivity|].
  destruct (f x); [reflexivity|exact IH].
Qed.

(** Creating an execution that brings no id. *)
Lemma create_without_id
    (history : list operation) (now : Z) (exec : ToolExecution) :
  let s := performAll empty history in
  ID exec = 0 ->
  sqlite_sequence s < int_max ->
  let s' := fst (fst (CreateToolExecution s now exec)) in
  let stored := snd (fst (CreateToolExecution s now exec)) in
  snd (CreateToolExecution s now exec) = None /\
  stored = withKey exec (sqlite_sequence s + 1)
                   (if CreatedAt exec =? 0 then now else CreatedAt exec) /\
  (forall r, List.In r (rows s) -> ID r < ID stored) /\
  (forall id, id <> ID stored ->
              GetToolExecution s' id = GetToolExecution s id) /\
  (DeletedAt exec = None ->
   GetToolExecution s' (ID stored) = (Some stored, None) /\
   len (visible s') = len (visible s) + 1).
Proof.
  intros s Hid Hroom.
  assert (Hs : consistent s) by apply performAll_consistent, empty_consistent.
  destruct Hs as [_ Hle].
  unfold CreateToolExecution. rewrite Hid. simpl (0 =? 0). cbv iota.
  destruct (int_max <=? sqlite_sequence s) eqn:E; [apply Z.leb_le in E; lia|].
  cbv zeta. cbn [fst snd].
  set (stored := withKey exec (sqlite_sequence s + 1)
                   (if CreatedAt exec =? 0 then now else CreatedAt exec)).
  assert (Hold : forall r, List.In r (rows s) -> ID r < ID stored).
  { intros r Hr. pose proof (proj1 (Forall_forall _ _) Hle r Hr) as H.
    simpl in H. simpl. lia. }
  assert (Hmiss : find (hasID (ID stored)) (visible s) = None).
  { apply find_none_all. intros x Hx. unfold visible in Hx.
    apply filter_In in Hx as [Hx _]. specialize (Hold x Hx).
    unfold hasID. apply Z.eqb_neq. lia. }
  repeat split; try assumption.
  - intros id Hne. unfold GetToolExecution, visible. cbn [rows].
    rewrite filter_app, find_app_split.
    destruct (find (hasID id) (filter live (rows s))); [reflexivity|].
    simpl. destruct (live stored); [|reflexivity]. simpl.
    unfold hasID at 1.
    destruct (ID stored =? id) eqn:E'; [apply Z.eqb_eq in E'; congruence|].
    reflexivity.
  - unfold GetToolExecution, visible. cbn [rows].
    rewrite filter_app, find_app_split. fold (visible s). rewrite Hmiss.
    simpl. unfold live at 1. simpl. rewrite H. simpl.
    unfold hasID. now rewrite Z.eqb_refl.
  - unfold visible, len. cbn [rows]. rewrite filter_app, length_app.
    simpl. unfold live at 2. simpl. rewrite H. simpl. lia.
Qed.

(** X11: creating an execution that brings no id, in a ledger built
    from the empty one whose counter has room, succeeds; the record
    stored is the one submitted with the next id, larger than every id
    in the table, and with the current time when it brought none; the
    records that were there are looked up as before; and when the record
    is not already marked deleted, looking up its id gives it back and
    the number of live records grows by one. *)
Theorem create_then_get_gives_the_record_back
    (history : list operation) (now : Z) (exec : ToolExecution) :
  let s := performAll empty history in
  ID exec = 0 ->
  sqlite_sequence s < int_max ->
  let s' := fst (fst (CreateToolExecution s now exec)) in
  let stored := snd (fst (CreateToolExecution s now exec)) in
  snd (CreateToolExecution s now exec) = None /\
  stored = withKey exec (sqlite_sequence s + 1)
                   (if CreatedAt exec =? 0 then now else CreatedAt exec) /\
  (forall r, List.In r (rows s) -> ID r < ID stored) /\
  (forall id, id <> ID stored ->
              GetToolExecution s' id = GetToolExecution s id) /\
  (DeletedAt exec = None ->
   GetToolExecution s' (ID stored) = (Some stored, None) /\
   len (visible s') = len (visible s) + 1).
Proof. exact (create_without_id history now exec). Qed.

Lemma create_then_get_gives_the_record_back_witness :
  GetToolExecution
    (fst (fst (CreateToolExecution twoInTurn 3000 (submitted "full_scan")))) 3
  = (Some (withKey (submitted "full_scan") 3 3000), None).
Proof.
  refine (proj1 (proj2 (proj2 (proj2 (proj2
            (create_then_get_gives_the_record_back
               [Create 1000 (submitted "nikto");
                Create 2000 (submitted "wapiti")] 3000
               (submitted "full_scan") _ _)))) _)).
  - reflexivity.
  - vm_compute. reflexivity.
  - reflexivity.
Defined.

End LedgerCreate.

Section InterceptorLedger.
Import models storage.
Context {In Out : Type}.
Variable json_Marshal_In : In -> string.
Variable json_Marshal_Result : tools.CallToolResult -> string.

(** X12: what the interceptor hands to the ledger is kept.  For a call
    through the interceptor and a ledger built from the empty one whose
    counter has room, storing the record succeeds, adds exactly one live
    record, and looking up the id assigned gives back a record created
    at the time of storing that carries the tool's name, the session of
    the request, the serialised input, and the success flag and error
    message of the call. *)
Theorem intercepted_call_is_kept_in_the_ledger
    (toolName : string) (handler : @tools.Handler In Out)
    (startTime endTime : Z) (req : tools.CallToolRequest) (input : In)
    (history : list operation) (now : Z) :
  let s := performAll empty history in
  sqlite_sequence s < int_max ->
  let exec := logged json_Marshal_In json_Marshal_Result toolName handler
                     startTime endTime req input in
  let s' := fst (fst (CreateToolExecution s now exec)) in
  let id := sqlite_sequence s + 1 in
  snd (CreateToolExecution s now exec) = None /\
  len (visible s') = len (visible s) + 1 /\
  exists stored,
    GetToolExecution s' id = (Some stored, None) /\
    ID stored = id /\ CreatedAt stored = now /\
    ToolName stored = toolName /\
    SessionID stored = match tools.Session req with
                       | Some sid => sid
                       | None => ""
                       end /\
    InputJSON stored = json_Marshal_In input /\
    (Success stored = true <-> snd (handler req input) = None) /\
    (forall e, snd (handler req input) = Some e -> ErrorMessage stored = e).
Proof.
  intros s Hroom exec s' id.
  assert (Hid : ID exec = 0).
  { unfold exec, logged, tools.WrapToolHandler.
    destruct (handler req input) as [[? ?] ?]. reflexivity. }
  assert (Hlive : DeletedAt exec = None).
  { unfold exec, logged, tools.WrapToolHandler.
    destruct (handler req input) as [[? ?] ?]. reflexivity. }
  destruct (create_without_id history now exec Hid Hroom)
    as (Herr & Hstored & _ & _ & Hget).
  destruct (Hget Hlive) as [Hget' Hcount].
  split; [exact Herr|]. split; [exact Hcount|].
  exists (snd (fst (CreateToolExecution (performAll empty history) now exec))).
  rewrite Hstored in *. split; [exact Hget'|].
  unfold exec, logged, tools.WrapToolHandler.
  destruct (handler req input) as [[result output] [e|]]; simpl;
    repeat split; try congruence; try discriminate; intros; congruence.
Qed.

End InterceptorLedger.

Section InterceptorLedgerExamples.
Import models storage.

Lemma intercepted_call_is_kept_in_the_ledger_witness :
  len (visible (fst (fst (CreateToolExecution twoInTurn 3000
         (logged (fun _ => "null") (fun _ => "null") "nikto" invalidInput
                 0 1500000 {| tools.Session := None |} tt)))))
  = len (visible twoInTurn) + 1.
Proof.
  refine (proj1 (proj2 (intercepted_call_is_kept_in_the_ledger
            (fun _ => "null") (fun _ => "null") "nikto" invalidInput
            0 1500000 {| tools.Session := None |} tt
            [Create 1000 (submitted "nikto");
             Create 2000 (submitted "wapiti")] 3000 _))).
  vm_compute. reflexivity.
Defined.

End InterceptorLedgerExamples.

Section LedgerInsertionOrder.
Import models storage.

(** Executions submitted one after the other, each with the reading of
    the clock when it is stored. *)
Definition record (entries : list (Z * ToolExecution)) : list operation :=
  map (fun e => Create (fst e) (snd e)) entries.

(** What the table holds after [record], counting ids from [seq]. *)
Fixpoint storedFrom (seq : Z) (entries : list (Z * ToolExecution))
  : list ToolExecution :=
  match entries with
  | [] => []
  | (now, exec) :: rest =>
      withKey exec (seq + 1) now :: storedFrom (seq + 1) rest
  end.

(** An execution as the interceptor builds it: no id, no time, not
    deleted. *)
Definition fresh (exec : ToolExecution) : Prop :=
  ID exec = 0 /\ CreatedAt exec = 0 /\ DeletedAt exec = None.

Lemma perform_create_fresh (s : SQLiteStorage) (now : Z)
    (exec : ToolExecution) :
  fresh exec -> sqlite_sequence s < int_max ->
  perform s (Create now exec)
  = {| rows := (rows s ++ [withKey exec (sqlite_sequence s + 1) now])%list;
       sqlite_sequence := sqlite_sequence s + 1 |}.
Proof.
  intros (Hid & Hc & _) Hroom. unfold perform, CreateToolExecution.
  rewrite Hid, Hc. simpl (0 =? 0). cbv iota.
  destruct (int_max <=? sqlite_sequence s) eqn:E;
    [apply Z.leb_le in E; lia|reflexivity].
Qed.

Lemma record_rows (entries : list (Z * ToolExecution)) :
  forall s,
    Forall (fun e => fresh (snd e)) entries ->
    sqlite_sequence s + len entries <= int_max ->
    rows (performAll s (record entries))
    = (rows s ++ storedFrom (sqlite_sequence s) entries)%list.
Proof.
  induction entries as [|[now exec] rest IH]; intros s Hfresh Hroom.
  - simpl. now rewrite app_nil_r.
  - inversion Hfresh as [|? ? Hf Hfresh']; subst. cbn [snd] in Hf.
    assert (Hl : len ((now, exec) :: rest) = 1 + len rest)
      by (unfold len; cbn [List.length]; lia).
    rewrite Hl in Hroom. pose proof (len_nonneg rest) as Hn.
    change (performAll s (record ((now, exec) :: rest)))
      with (performAll (perform s (Create now exec)) (record rest)).
    rewrite perform_create_fresh by (assumption || lia).
    rewrite IH; [|assumption|cbn [sqlite_sequence]; lia].
    cbn [rows sqlite_sequence storedFrom]. now rewrite <- app_assoc.
Qed.

Lemma storedFrom_times (seq : Z) (entries : list (Z * ToolExecution)) :
  map CreatedAt (storedFrom seq entries) = map fst entries.
Proof.
  revert seq. induction entries as [|[now exec] rest IH]; intros seq;
    [reflexivity|]. simpl. now rewrite IH.
Qed.

Lemma storedFrom_live (seq : Z) (entries : list (Z * ToolExecution)) :
  Forall (fun e => fresh (snd e)) entries ->
  filter live (storedFrom seq entries) = storedFrom seq entries.
Proof.
  revert seq. induction entries as [|[now exec] rest IH]; intros seq H;
    [reflexivity|].
  inversion H as [|? ? [_ [_ Hd]] H']; subst. simpl in *.
  unfold live at 1. simpl. rewrite Hd. now rewrite IH.
Qed.

Lemma storedFrom_ids (start : Z) (entries : list (Z * ToolExecution)) :
  map ID (storedFrom start entries)
  = map (fun i => start + 1 + Z.of_nat i) (seq 0 (List.length entries)).
Proof.
  revert start. induction entries as [|[now exec] rest IH]; intros sq;
    [reflexivity|].
  simpl. rewrite IH. f_equal; [lia|].
  rewrite <- seq_shift, map_map. apply map_ext. intros i. lia.
Qed.

Lemma sorted_snoc {A} (R : A -> A -> Prop) (l : list A) (a : A) :
  StronglySorted R l -> Forall (fun x => R x a) l ->
  StronglySorted R (l ++ [a]).
Proof.
  induction 1 as [|x l Hs IH Hx]; intros Ha; simpl.
  - repeat constructor.
  - inversion Ha; subst. constructor; [now apply IH|].
    apply Forall_app. split; [assumption|]. now repeat constructor.
Qed.

Lemma sorted_rev {A} (R : A -> A -> Prop) (l : list A) :
  StronglySorted R l -> StronglySorted (fun a b => R b a) (rev l).
Proof.
  induction 1 as [|x l Hs IH Hx]; simpl; [constructor|].
  apply sorted_snoc; [exact IH|].
  apply Forall_forall. intros y Hy. apply in_rev in Hy.
  now apply (proj1 (Forall_forall _ _) Hx).
Qed.

(** Two arrangements of the same elements in a strict order coincide. *)
Lemma sorted_unique {A} (R : A -> A -> Prop) (l1 l2 : list A) :
  (forall a b, R a b -> R b a -> False) ->
  StronglySorted R l1 -> StronglySorted R l2 -> Permutation l1 l2 ->
  l1 = l2.
Proof.
  intros Hasym H1. revert l2.
  induction H1 as [|a l1 Hs1 IH Ha]; intros l2 H2 Hp.
  - now apply Permutation_nil in Hp.
  - destruct l2 as [|b l2];
      [symmetry in Hp; now apply Permutation_nil in Hp|].
    inversion H2 as [|? ? Hs2 Hb]; subst.
    assert (Hab : a = b).
    { assert (Ha2 : List.In a (b :: l2))
        by (eapply Permutation_in; [exact Hp|now left]).
      assert (Hb1 : List.In b (a :: l1))
        by (eapply Permutation_in; [symmetry; exact Hp|now left]).
      destruct Ha2 as [->|Ha2]; [reflexivity|].
      destruct Hb1 as [->|Hb1]; [reflexivity|].
      exfalso. apply (Hasym a b).
      - now apply (proj1 (Forall_forall _ _) Ha).
      - now apply (proj1 (Forall_forall _ _) Hb). }
    subst b. f_equal. apply IH; [assumption|].
    now apply Permutation_cons_inv in Hp.
Qed.

Lemma increasing_NoDup (l : list Z) : StronglySorted Z.lt l -> NoDup l.
Proof.
  induction 1 as [|a l Hs IH Ha]; constructor; [|assumption].
  intros Hin. pose proof (proj1 (Forall_forall _ _) Ha a Hin). lia.
Qed.

Lemma sorted_map {A B} (f : A -> B) (R : B -> B -> Prop) (l : list A) :
  StronglySorted R (map f l) -> StronglySorted (fun a b => R (f a) (f b)) l.
Proof.
  induction l as [|x l IH]; simpl; intros H; [constructor|].
  inversion H as [|? ? Hs Hx]; subst. constructor; [now apply IH|].
  apply Forall_forall. intros y Hy.
  apply (proj1 (Forall_forall _ _) Hx). now apply in_map.
Qed.

(** X13: executions recorded one after the other into an empty ledger
    while the clock advances get the ids 1, 2, ... in that order, and
    [GetToolExecutions], asked for all of them, lists them in the
    reverse of the order in which they were recorded, whatever the
    database does with ties. *)
Theorem list_returns_newest_first
    (E : SqlEngine) (entries : list (Z * ToolExecution)) :
  orders_by_created_at_desc E ->
  Forall (fun e => fresh (snd e)) entries ->
  StronglySorted Z.lt (map fst entries) ->
  len entries <= int_max ->
  let s := performAll empty (record entries) in
  map ID (rows s)
  = map (fun i => 1 + Z.of_nat i) (seq 0 (List.length entries)) /\
  map CreatedAt (rows s) = map fst entries /\
  GetToolExecutions E s (len entries) 0 = (rev (rows s), len entries, None).
Proof.
  intros [Hperm Hsort] Hfresh Hinc Hroom s.
  assert (Hrows : rows s = storedFrom 0 entries).
  { unfold s. rewrite record_rows; [reflexivity|assumption|simpl; lia]. }
  assert (Hvis : visible s = rows s).
  { unfold visible. rewrite Hrows. now apply storedFrom_live. }
  assert (Htimes : map CreatedAt (rows s) = map fst entries)
    by (rewrite Hrows; apply storedFrom_times).
  assert (Hlen : List.length (rows s) = List.length entries).
  { rewrite <- (length_map CreatedAt), Htimes. apply length_map. }
  split; [rewrite Hrows; apply storedFrom_ids|]. split; [exact Htimes|].
  unfold GetToolExecutions, applyOffset. rewrite Hvis.
  change (0 <? 0) with false. cbv iota zeta.
  assert (Horder : E (rows s) = rev (rows s)).
  { apply (sorted_unique (fun a b => CreatedAt b < CreatedAt a)).
    - intros a b H1 H2. lia.
    - apply sorted_strict; [apply Hsort|].
      eapply Permutation_NoDup; [apply Permutation_map, Hperm|].
      rewrite Htimes. now apply increasing_NoDup.
    - apply (sorted_rev (fun a b => CreatedAt a < CreatedAt b)).
      apply sorted_map with (f := CreatedAt) (R := Z.lt). now rewrite Htimes.
    - eapply Permutation_trans; [symmetry; apply Hperm|].
      apply Permutation_rev. }
  rewrite Horder.
  assert (Hall : applyLimit (len entries) (rev (rows s)) = rev (rows s)).
  { unfold applyLimit. destruct (0 <? len entries); [|reflexivity].
    apply firstn_all2. rewrite length_rev, Hlen. unfold len. lia. }
  assert (Htotal : len (rows s) = len entries)
    by (unfold len; now rewrite Hlen).
  now rewrite Hall, Htotal.
Qed.

Lemma list_returns_newest_first_witness :
  GetToolExecutions concrete.sortDesc twoInTurn 2 0
  = (rev (rows twoInTurn), 2, None).
Proof.
  refine (proj2 (proj2 (list_returns_newest_first concrete.sortDesc
            [(1000, submitted "nikto"); (2000, submitted "wapiti")]
            sortDesc_orders _ _ _))).
  - repeat constructor.
  - repeat constructor.
  - vm_compute. congruence.
Defined.

End LedgerInsertionOrder.

Section LedgerDeletes.
Import models storage.

Lemma engine_nil (E : SqlEngine) : orders_by_created_at_desc E -> E [] = [].
Proof. intros [Hperm _]. now apply Permutation_nil. Qed.

Lemma filter_none {A} (f : A -> bool) (l : list A) :
  (forall x, List.In x l -> f x = false) -> filter f l = [].
Proof.
  induction l as [|x l IH]; intros H; [reflexivity|]. simpl.
  rewrite (H x (or_introl eq_refl)). apply IH. intros y Hy. apply H.
  now right.
Qed.

(** X14: after [DeleteAllToolExecutions] every read comes back empty:
    the total is zero, the listings hold nothing and no id is found.
    The rows themselves stay in the table with their ids, so the ids
    are not handed out again: an execution created next gets an id
    larger than all of them. *)
Theorem delete_all_empties_every_read
    (E : SqlEngine) (history : list operation) (now : Z) :
  orders_by_created_at_desc E ->
  let s := performAll empty history in
  let s' := fst (DeleteAllToolExecutions s now) in
  snd (DeleteAllToolExecutions s now) = None /\
  (forall limit offset, GetToolExecutions E s' limit offset = ([], 0, None)) /\
  (forall id, GetToolExecution s' id = (None, Some ErrRecordNotFound)) /\
  (forall sessionID, GetToolExecutionsBySession E s' sessionID = ([], None)) /\
  (forall toolName limit,
      GetToolExecutionsByTool E s' toolName limit = ([], None)) /\
  map ID (rows s') = map ID (rows s) /\
  (forall now' exec r,
      ID exec = 0 -> sqlite_sequence s' < int_max -> List.In r (rows s) ->
      ID r < ID (snd (fst (CreateToolExecution s' now' exec)))).
Proof.
  intros HE s s'.
  assert (Hvis : visible s' = []).
  { unfold visible, s'. simpl. apply filter_none. intros x Hx.
    apply in_map_iff in Hx as (r & <- & _).
    destruct (live r) eqn:El; [reflexivity|exact El]. }
  assert (Hs : consistent s) by apply performAll_consistent, empty_consistent.
  split; [reflexivity|]. repeat split.
  - intros limit offset. unfold GetToolExecutions. rewrite Hvis.
    rewrite (engine_nil E HE). unfold applyLimit, applyOffset.
    destruct (0 <? limit), (0 <? offset);
      rewrite ?skipn_nil, ?firstn_nil; reflexivity.
  - intros id. unfold GetToolExecution. now rewrite Hvis.
  - intros sessionID. unfold GetToolExecutionsBySession. rewrite Hvis.
    simpl. now rewrite (engine_nil E HE).
  - intros toolName limit. unfold GetToolExecutionsByTool. rewrite Hvis.
    simpl. rewrite (engine_nil E HE). unfold applyLimit.
    destruct (0 <? limit); rewrite ?firstn_nil; reflexivity.
  - unfold s'. simpl. apply map_ID_preserved, softDeleteAll_ID.
  - intros now' exec r Hid Hroom Hr. unfold CreateToolExecution.
    rewrite Hid. simpl (0 =? 0). cbv iota.
    destruct (int_max <=? sqlite_sequence s') eqn:El;
      [apply Z.leb_le in El; lia|].
    cbn [fst snd]. destruct Hs as [_ Hle].
    pose proof (proj1 (Forall_forall _ _) Hle r Hr) as H. simpl in H.
    simpl. lia.
Qed.

Lemma delete_all_empties_every_read_witness :
  GetToolExecutions concrete.sortDesc
    (fst (DeleteAllToolExecutions twoInTurn 3000)) 10 0
  = ([], 0, None).
Proof.
  exact (proj1 (proj2 (delete_all_empties_every_read concrete.sortDesc
           [Create 1000 (submitted "nikto"); Create 2000 (submitted "wapiti")]
           3000 sortDesc_orders)) 10 0).
Defined.

Lemma softDeleteRow_dead (now id : Z) (l : list ToolExecution) :
  (forall r, List.In r l -> live r = true -> ID r <> id) ->
  map (softDeleteRow now id) l = l.
Proof.
  intros H. rewrite <- (map_id l) at 2. apply map_ext_in. intros r Hr.
  unfold softDeleteRow, hasID.
  destruct (ID r =? id) eqn:E1; [|reflexivity].
  destruct (live r) eqn:E2; [|reflexivity].
  apply Z.eqb_eq in E1. exfalso. now apply (H r Hr E2).
Qed.

Lemma delete_keeps_others (now id other : Z) (l : list ToolExecution) :
  other <> id ->
  find (hasID other) (filter live (map (softDeleteRow now id) l))
  = find (hasID other) (filter live l).
Proof.
  intros Hne. induction l as [|r l IH]; [reflexivity|].
  cbn [map filter].
  assert (Hrow : softDeleteRow now id r
                 = if hasID id r && live r
                   then withDeletedAt r (Some now) else r) by reflexivity.
  rewrite Hrow. clear Hrow.
  destruct (hasID id r) eqn:E1; destruct (live r) eqn:E2;
    cbn [andb]; cbv iota; rewrite ?E2.
  - change (live (withDeletedAt r (Some now))) with false. cbv iota.
    cbn [find]. unfold hasID in E1 |- *. apply Z.eqb_eq in E1.
    destruct (ID r =? other) eqn:E3; [apply Z.eqb_eq in E3; congruence|].
    exact IH.
  - exact IH.
  - cbn [find]. now rewrite IH.
  - exact IH.
Qed.

(** X15: [DeleteToolExecution] never reports an error, also when no
    live record has the id, in which case the ledger is left exactly as
    it was; deleting the same id again changes nothing more; and a
    deletion leaves the lookup of every other id as it was. *)
Theorem delete_is_silent_and_idempotent
    (s : SQLiteStorage) (now now' id : Z) :
  let s' := fst (DeleteToolExecution s now id) in
  snd (DeleteToolExecution s now id) = None /\
  ((forall r, List.In r (visible s) -> ID r <> id) -> s' = s) /\
  fst (DeleteToolExecution s' now' id) = s' /\
  (forall other, other <> id ->
                 GetToolExecution s' other = GetToolExecution s other).
Proof.
  intros s'. split; [reflexivity|]. split; [|split].
  - intros Hnone. unfold s', DeleteToolExecution. simpl.
    fold (softDeleteRow now id). rewrite softDeleteRow_dead.
    + now destruct s.
    + intros r Hr Hlive. apply Hnone. unfold visible.
      apply filter_In. now split.
  - unfold DeleteToolExecution. cbn [fst rows sqlite_sequence].
    fold (softDeleteRow now' id). rewrite softDeleteRow_dead; [reflexivity|].
    intros r Hr Hlive Hid. unfold s' in Hr. simpl in Hr.
    apply in_map_iff in Hr as (r0 & <- & _).
    unfold hasID in *. revert Hlive Hid.
    destruct (ID r0 =? id) eqn:E1; destruct (live r0) eqn:E2; simpl;
      intros Hlive Hid; try congruence; try discriminate;
      apply Z.eqb_neq in E1; contradiction.
  - intros other Hne. unfold GetToolExecution, visible, s'. simpl.
    fold (softDeleteRow now id). now rewrite delete_keeps_others.
Qed.

End LedgerDeletes.

Section LedgerDeletesExamples.
Import models storage.

Lemma delete_is_silent_and_idempotent_witness :
  fst (DeleteToolExecution twoInTurn 3000 7) = twoInTurn.
Proof.
  refine (proj1 (proj2 (delete_is_silent_and_idempotent twoInTurn 3000 4000 7))
                _).
  intros r Hr. vm_compute in Hr.
  destruct Hr as [<-|[<-|[]]]; discriminate.
Defined.

End LedgerDeletesExamples.

Section LedgerPages.
Import models storage.
Variable E : SqlEngine.

(** X16: the pages of [GetToolExecutions].  With a positive limit a page
    holds at most that many executions; a limit that is not positive
    means no limit; the total is the same on every page; and the page
    that starts where a page ends continues it: the two, one after the
    other, are the page of twice the limit. *)
Theorem list_pages_follow_each_other
    (s : SQLiteStorage) (limit offset : Z) :
  0 <= offset ->
  let page l o := fst (fst (GetToolExecutions E s l o)) in
  (0 < limit -> len (page limit offset) <= limit) /\
  (limit <= 0 -> page limit offset = skipn (Z.to_nat offset) (E (visible s))) /\
  snd (fst (GetToolExecutions E s limit offset)) = len (visible s) /\
  (0 < limit ->
   (page limit offset ++ page limit (offset + limit))%list
   = page (2 * limit) offset).
Proof.
  intros Hoff page.
  assert (Hpage : forall l o, 0 <= o ->
            page l o = applyLimit l (skipn (Z.to_nat o) (E (visible s)))).
  { intros l o Ho. unfold page, GetToolExecutions, applyOffset. simpl.
    destruct (0 <? o) eqn:Eo; [reflexivity|].
    apply Z.ltb_ge in Eo. now replace o with 0 by lia. }
  split; [|split; [|split]].
  - intros Hl. rewrite Hpage by assumption. now apply applyLimit_length.
  - intros Hl. rewrite Hpage by assumption. unfold applyLimit.
    destruct (0 <? limit) eqn:El; [apply Z.ltb_lt in El; lia|reflexivity].
  - reflexivity.
  - intros Hl. rewrite !Hpage by lia. unfold applyLimit.
    replace (0 <? limit) with true by (symmetry; apply Z.ltb_lt; lia).
    replace (0 <? 2 * limit) with true by (symmetry; apply Z.ltb_lt; lia).
    replace (Z.to_nat (offset + limit))
      with (Z.to_nat limit + Z.to_nat offset)%nat by lia.
    rewrite <- skipn_skipn.
    replace (Z.to_nat (2 * limit)) with (Z.to_nat limit + Z.to_nat limit)%nat
      by lia.
    apply firstn_then_firstn.
Qed.

(** X17: the listings by session and by tool hold live records only,
    all of the session or tool asked for, newest first; the listing by
    session holds every such record, the listing by tool the first
    [limit] of them when a positive limit is given. *)
Theorem listings_by_session_and_tool_select
    (s : SQLiteStorage) (sessionID toolName : string) (limit : Z) :
  orders_by_created_at_desc E ->
  let bySession := fst (GetToolExecutionsBySession E s sessionID) in
  let byTool := fst (GetToolExecutionsByTool E s toolName limit) in
  Permutation bySession
    (filter (fun r => String.eqb (SessionID r) sessionID) (visible s)) /\
  StronglySorted notOlder bySession /\
  (forall r, List.In r bySession <->
             List.In r (rows s) /\ DeletedAt r = None
             /\ SessionID r = sessionID) /\
  StronglySorted notOlder byTool /\
  (forall r, List.In r byTool ->
             List.In r (rows s) /\ DeletedAt r = None
             /\ ToolName r = toolName) /\
  (0 < limit -> len byTool <= limit) /\
  (limit <= 0 ->
   Permutation byTool
     (filter (fun r => String.eqb (ToolName r) toolName) (visible s))).
Proof.
  intros [Hperm Hsort] bySession byTool.
  assert (Hlive : forall r, live r = true <-> DeletedAt r = None).
  { intros r. unfold live. destruct (DeletedAt r); split; congruence. }
  unfold bySession, byTool, GetToolExecutionsBySession,
    GetToolExecutionsByTool. cbn [fst].
  split; [symmetry; apply Hperm|]. split; [apply Hsort|].
  split; [|split; [|split; [|split]]].
  - intros r. split.
    + intros Hr. apply (Permutation_in _ (Permutation_sym (Hperm _))) in Hr.
      apply filter_In in Hr as [Hr Hs]. unfold visible in Hr.
      apply filter_In in Hr as [Hr Hl]. apply String.eqb_eq in Hs.
      apply Hlive in Hl. auto.
    + intros (Hr & Hl & Hs). apply (Permutation_in _ (Hperm _)).
      apply filter_In. split.
      * unfold visible. apply filter_In. split; [exact Hr|now apply Hlive].
      * now apply String.eqb_eq.
  - unfold applyLimit. destruct (0 <? limit);
      [apply sorted_firstn|]; apply Hsort.
  - intros r Hr. apply In_applyLimit in Hr.
    apply (Permutation_in _ (Permutation_sym (Hperm _))) in Hr.
    apply filter_In in Hr as [Hr Hs]. unfold visible in Hr.
    apply filter_In in Hr as [Hr Hl]. apply String.eqb_eq in Hs.
    apply Hlive in Hl. auto.
  - intros Hl. now apply applyLimit_length.
  - intros Hl. unfold applyLimit.
    destruct (0 <? limit) eqn:El; [apply Z.ltb_lt in El; lia|].
    symmetry. apply Hperm.
Qed.

End LedgerPages.

Section LedgerPagesExamples.
Import models storage.

Lemma list_pages_follow_each_other_witness :
  (fst (fst (GetToolExecutions concrete.sortDesc twelve 5 0))
   ++ fst (fst (GetToolExecutions concrete.sortDesc twelve 5 (0 + 5))))%list
  = fst (fst (GetToolExecutions concrete.sortDesc twelve (2 * 5) 0)).
Proof.
  refine (proj2 (proj2 (proj2 (list_pages_follow_each_other
            concrete.sortDesc twelve 5 0 _))) _); lia.
Defined.

Lemma listings_by_session_and_tool_select_witness :
  StronglySorted notOlder
    (fst (GetToolExecutionsBySession concrete.sortDesc twoInTurn "")).
Proof.
  exact (proj1 (proj2 (listings_by_session_and_tool_select
           concrete.sortDesc twoInTurn "" "nikto" 1 sortDesc_orders))).
Defined.

End LedgerPagesExamples.

(** ** More on the history operation *)
Section HistoryMore.
Import models storage history.
Variable E : SqlEngine.
Variable marshalListing : Z -> Z -> Z -> list ToolExecution -> string.
Variable marshalExecution : option ToolExecution -> string.

Definition knownAction (action : string) : Prop :=
  action = "list" \/ action = "get" \/ action = "delete" \/ action = "clear".

Lemma oneof_known (action : string) :
  oneof action ["list"; "get"; "delete"; "clear"] = true <->
  knownAction action.
Proof.
  unfold oneof, knownAction. cbn [existsb]. rewrite !orb_true_iff.
  rewrite !String.eqb_eq. intuition congruence.
Qed.

Lemma history_valid_iff (input : Input) :
  validator_Struct input = None <->
  knownAction (Action input) /\ 0 <= Limit input <= 100
  /\ 0 <= Offset input.
Proof.
  unfold validator_Struct, fieldErrors.
  destruct (String.eqb (Action input) "") eqn:Ea.
  - apply String.eqb_eq in Ea. split; [discriminate|].
    intros [[H|[H|[H|H]]] _]; rewrite H in Ea; discriminate.
  - destruct (oneof (Action input) ["list"; "get"; "delete"; "clear"]) eqn:Eo.
    + apply oneof_known in Eo. cbn [app].
      destruct (Limit input <? 0) eqn:E1.
      * apply Z.ltb_lt in E1. split; [discriminate|lia].
      * apply Z.ltb_ge in E1. destruct (100 <? Limit input) eqn:E2.
        -- apply Z.ltb_lt in E2. split; [discriminate|lia].
        -- apply Z.ltb_ge in E2. cbn [app].
           destruct (Offset input <? 0) eqn:E3.
           ++ apply Z.ltb_lt in E3. split; [discriminate|lia].
           ++ apply Z.ltb_ge in E3. split; [auto|reflexivity].
    + split; [discriminate|]. intros [Hk _].
      apply oneof_known in Hk. congruence.
Qed.

Definition handle (store : SQLiteStorage) (now : Z) (input : Input)
  : SQLiteStorage * option tools.CallToolResult * error :=
  HistoryHandler E marshalListing marshalExecution store now input.

(** X18: which requests the history operation accepts, and what it
    leaves alone.  Validation passes exactly for one of the four actions
    with a limit from 0 to 100 and an offset that is not negative.  A
    request that is refused gets the validation error and no result.
    Whenever the handler returns an error, and whenever the action is
    [list] or [get], the ledger is what it was. *)
Theorem history_changes_the_ledger_only_on_delete_and_clear
    (store : SQLiteStorage) (now : Z) (input : Input) :
  (validator_Struct input = None <->
   knownAction (Action input) /\ 0 <= Limit input <= 100
   /\ 0 <= Offset input) /\
  (forall v, validator_Struct input = Some v ->
             handle store now input
             = (store, None, Some ("validation error: " ++ v))) /\
  (snd (handle store now input) <> None ->
   fst (fst (handle store now input)) = store
   /\ snd (fst (handle store now input)) = None) /\
  (Action input = "list" \/ Action input = "get" ->
   fst (fst (handle store now input)) = store).
Proof.
  split; [apply history_valid_iff|]. unfold handle, HistoryHandler.
  split; [|split].
  - intros v Hv. now rewrite Hv.
  - destruct (validator_Struct input); [intros _; split; reflexivity|].
    destruct (String.eqb (Action input) "list");
      [intros H; now contradiction H|].
    destruct (String.eqb (Action input) "get").
    { destruct (ID input =? 0); [intros _; split; reflexivity|].
      unfold GetToolExecution.
      destruct (find _ _); [intros H; now contradiction H|].
      intros _; split; reflexivity. }
    destruct (String.eqb (Action input) "delete").
    { destruct (ID input =? 0); [intros _; split; reflexivity|].
      intros H; now contradiction H. }
    destruct (String.eqb (Action input) "clear");
      intros H; now contradiction H.
  - intros Hact.
    destruct (validator_Struct input); [reflexivity|].
    destruct Hact as [Hact|Hact]; rewrite Hact; simpl.
    + reflexivity.
    + destruct (ID input =? 0); [reflexivity|].
      unfold GetToolExecution. destruct (find _ _); reflexivity.
Qed.

(** X19: the [get] action.  Without an id the request is refused; an id
    that no live record has gives the not-found error; the id of a live
    record of a ledger built from the empty one gives that record,
    serialised. *)
Theorem history_get_finds_live_records_only
    (history : list operation) (now : Z) (input : Input) :
  let store := performAll empty history in
  Action input = "get" ->
  0 <= Limit input <= 100 -> 0 <= Offset input ->
  (ID input = 0 ->
   handle store now input
   = (store, None, Some "id is required for get action")) /\
  (ID input <> 0 ->
   (forall r, List.In r (visible store) -> models.ID r <> ID input) ->
   handle store now input
   = (store, None, Some "execution not found: record not found")) /\
  (forall exec,
      ID input <> 0 -> List.In exec (visible store) ->
      models.ID exec = ID input ->
      handle store now input
      = (store, textResult (marshalExecution (Some exec)), None)).
Proof.
  intros store Hact Hlim Hoff.
  assert (Hvalid : validator_Struct input = None).
  { apply history_valid_iff. unfold knownAction. auto. }
  unfold handle, HistoryHandler. rewrite Hvalid, Hact.
  change (String.eqb "get" "list") with false.
  change (String.eqb "get" "get") with true. cbv iota.
  split; [|split].
  - intros ->. reflexivity.
  - intros Hne Hnone.
    destruct (ID input =? 0) eqn:E0; [apply Z.eqb_eq in E0; congruence|].
    unfold GetToolExecution. rewrite find_none_all; [reflexivity|].
    intros x Hx. unfold hasID. apply Z.eqb_neq. now apply Hnone.
  - intros exec Hne Hin Hid.
    destruct (ID input =? 0) eqn:E0; [apply Z.eqb_eq in E0; congruence|].
    unfold GetToolExecution.
    destruct (find (hasID (ID input)) (visible store)) as [found|] eqn:Hf.
    + apply find_some in Hf as [Hfin Hfid]. unfold hasID in Hfid.
      apply Z.eqb_eq in Hfid.
      assert (Hs : consistent store)
        by apply performAll_consistent, empty_consistent.
      assert (found = exec).
      { destruct Hs as [Hnd _]. unfold visible in Hfin, Hin.
        apply filter_In in Hfin as [Hfin _]. apply filter_In in Hin as [Hin _].
        clear -Hnd Hfin Hin Hfid Hid. revert Hnd Hfin Hin.
        induction (rows store) as [|x l IH]; intros Hnd Hfin Hin;
          [contradiction|].
        simpl in Hnd. inversion Hnd as [|? ? Hx Hnd']; subst.
        destruct Hfin as [->|Hfin], Hin as [->|Hin]; auto.
        - exfalso. apply Hx. replace (models.ID found) with (models.ID exec)
            by congruence. now apply in_map.
        - exfalso. apply Hx. replace (models.ID exec) with (models.ID found)
            by congruence. now apply in_map. }
      now subst found.
    + exfalso.
      pose proof (find_none _ _ Hf exec Hin) as H. unfold hasID in H.
      apply Z.eqb_neq in H. contradiction.
Qed.

(** X20: the [delete] action answers that the execution was deleted for
    every id other than zero, whether or not a live record had it; a
    [get] of that id right after is answered with the not-found error.
    Without an id the request is refused and the ledger is not touched. *)
Theorem history_delete_then_get_is_not_found
    (store : SQLiteStorage) (now now' : Z) (input again : Input) :
  Action input = "delete" ->
  0 <= Limit input <= 100 -> 0 <= Offset input ->
  Action again = "get" -> ID again = ID input ->
  0 <= Limit again <= 100 -> 0 <= Offset again ->
  (ID input = 0 ->
   handle store now input
   = (store, None, Some "id is required for delete action")) /\
  (ID input <> 0 ->
   let store' := fst (DeleteToolExecution store now (ID input)) in
   handle store now input
   = (store',
      textResult ("Execution " ++ GoStrings.Itoa (ID input)
                  ++ " deleted successfully"),
      None) /\
   handle store' now' again
   = (store', None, Some "execution not found: record not found")).
Proof.
  intros Hact Hlim Hoff Hact' Hsame Hlim' Hoff'.
  assert (Hvalid : validator_Struct input = None).
  { apply history_valid_iff. unfold knownAction. auto. }
  assert (Hvalid' : validator_Struct again = None).
  { apply history_valid_iff. unfold knownAction. auto. }
  unfold handle, HistoryHandler. rewrite Hvalid, Hvalid', Hact, Hact', Hsame.
  change (String.eqb "delete" "list") with false.
  change (String.eqb "delete" "get") with false.
  change (String.eqb "delete" "delete") with true.
  change (String.eqb "get" "list") with false.
  change (String.eqb "get" "get") with true. cbv iota.
  split.
  - intros ->. reflexivity.
  - intros Hne.
    destruct (ID input =? 0) eqn:E0; [apply Z.eqb_eq in E0; congruence|].
    split; [reflexivity|].
    unfold GetToolExecution. rewrite find_none_all; [reflexivity|].
    intros x Hx. unfold visible in Hx. apply filter_In in Hx as [Hx Hlive].
    simpl in Hx. apply in_map_iff in Hx as (r & Hr & _). subst x.
    revert Hlive. cbv beta.
    destruct (hasID (ID input) r) eqn:E1; destruct (live r) eqn:E2;
      cbn [andb]; cbv iota; rewrite ?E1, ?E2; try congruence.
    change (live (withDeletedAt r (Some now))) with false. discriminate.
Qed.

(** X21: the [clear] action answers that the history was cleared, and a
    [list] right after reports a total of zero and no executions. *)
Theorem history_clear_then_list_is_empty
    (store : SQLiteStorage) (now now' : Z) (input again : Input) :
  orders_by_created_at_desc E ->
  Action input = "clear" ->
  0 <= Limit input <= 100 -> 0 <= Offset input ->
  Action again = "list" ->
  0 <= Limit again <= 100 -> 0 <= Offset again ->
  let store' := fst (DeleteAllToolExecutions store now) in
  handle store now input
  = (store', textResult "All execution history cleared", None) /\
  handle store' now' again
  = (store',
     textResult (marshalListing 0
                   (if Limit again =? 0 then 10 else Limit again)
                   (Offset again) []),
     None).
Proof.
  intros HE Hact Hlim Hoff Hact' Hlim' Hoff' store'.
  assert (Hvalid : validator_Struct input = None).
  { apply history_valid_iff. unfold knownAction. auto. }
  assert (Hvalid' : validator_Struct again = None).
  { apply history_valid_iff. unfold knownAction. auto. }
  unfold handle, HistoryHandler. rewrite Hvalid, Hvalid', Hact, Hact'.
  change (String.eqb "clear" "list") with false.
  change (String.eqb "clear" "get") with false.
  change (String.eqb "clear" "delete") with false.
  change (String.eqb "clear" "clear") with true.
  change (String.eqb "list" "list") with true. cbv iota.
  split; [reflexivity|].
  assert (Hvis : visible store' = []).
  { unfold visible, store'. simpl. apply filter_none. intros x Hx.
    apply in_map_iff in Hx as (r & <- & _).
    destruct (live r) eqn:El; [reflexivity|exact El]. }
  unfold GetToolExecutions. fold store'. rewrite Hvis.
  rewrite (engine_nil E HE). unfold applyLimit, applyOffset.
  destruct (0 <? (if Limit again =? 0 then 10 else Limit again)),
    (0 <? Offset again); rewrite ?skipn_nil, ?firstn_nil; reflexivity.
Qed.

End HistoryMore.

Section HistoryMoreExamples.
Import models storage history.

Definition noListing : Z -> Z -> Z -> list ToolExecution -> string :=
  fun _ _ _ _ => "{}".

Definition showTool : option ToolExecution -> string :=
  fun exec => match exec with
              | Some e => ToolName e
              | None => "null"
              end.

Definition request (action : string) (id limit : Z) : Input :=
  {| Action := action; ID := id; Limit := limit; Offset := 0 |}.

Lemma history_changes_the_ledger_only_on_delete_and_clear_witness :
  handle concrete.sortDesc noListing showTool twoInTurn 3000
         (request "list" 0 500)
  = (twoInTurn, None,
     Some ("validation error: "
           ++ "Key: 'Input.Limit' Error:Field validation for 'Limit' failed on the 'max' tag")).
Proof.
  refine (proj1 (proj2 (history_changes_the_ledger_only_on_delete_and_clear
            concrete.sortDesc noListing showTool twoInTurn 3000
            (request "list" 0 500))) _ _).
  reflexivity.
Defined.

Lemma history_get_finds_live_records_only_witness :
  handle concrete.sortDesc noListing showTool twoInTurn 3000
         (request "get" 1 0)
  = (twoInTurn,
     textResult (showTool (Some (withKey (submitted "nikto") 1 1000))), None).
Proof.
  refine (proj2 (proj2 (history_get_finds_live_records_only
            concrete.sortDesc noListing showTool
            [Create 1000 (submitted "nikto"); Create 2000 (submitted "wapiti")]
            3000 (request "get" 1 0) _ _ _)) _ _ _ _);
    try reflexivity; try (simpl; lia).
  vm_compute. left. reflexivity.
Defined.

Lemma history_delete_then_get_is_not_found_witness :
  handle concrete.sortDesc noListing showTool
         (fst (DeleteToolExecution twoInTurn 3000 1)) 4000 (request "get" 1 0)
  = (fst (DeleteToolExecution twoInTurn 3000 1), None,
     Some "execution not found: record not found").
Proof.
  refine (proj2 (proj2 (history_delete_then_get_is_not_found
            concrete.sortDesc noListing showTool twoInTurn 3000 4000
            (request "delete" 1 0) (request "get" 1 0) _ _ _ _ _ _ _) _));
    try reflexivity; simpl; lia.
Defined.

Lemma history_clear_then_list_is_empty_witness :
  handle concrete.sortDesc noListing showTool
         (fst (DeleteAllToolExecutions twoInTurn 3000)) 4000
         (request "list" 0 0)
  = (fst (DeleteAllToolExecutions twoInTurn 3000),
     textResult (noListing 0 10 0 []), None).
Proof.
  refine (proj2 (history_clear_then_list_is_empty
            concrete.sortDesc noListing showTool twoInTurn 3000 4000
            (request "clear" 0 0) (request "list" 0 0)
            sortDesc_orders _ _ _ _ _ _));
    try reflexivity; simpl; lia.
Defined.

End HistoryMoreExamples.

(** ** The formatters and validation *)
Section Formatters.
Import fullscan.
Variable L : GoLib.

(** X22: why the limit is validated.  For a limit from 0 to 100000 and a
    text whose line count fits, none of the three formatters
    ([applyPagination] and the [formatOutput] of nikto and of wapiti)
    panics; for a negative limit and no offset all three do, whatever
    the text. *)
Theorem formatters_panic_only_on_negative_limits
    (targetURL output : string) (maxLines offset : Z) :
  (0 <= maxLines <= 100000 -> fitsInt output ->
   (exists text, applyPagination output maxLines offset = Some text) /\
   (exists text,
       nikto.formatOutput L targetURL output maxLines offset = Some text) /\
   (exists text,
       wapiti.formatOutput L targetURL output maxLines offset = Some text)) /\
  (maxLines < 0 -> offset <= 0 ->
   applyPagination output maxLines offset = None /\
   nikto.formatOutput L targetURL output maxLines offset = None /\
   wapiti.formatOutput L targetURL output maxLines offset = None).
Proof.
  split.
  - intros Hmax Hfit.
    destruct (applyPagination_total output maxLines offset Hmax Hfit)
      as [text Htext].
    unfold applyPagination in Htext.
    unfold applyPagination, nikto.formatOutput, wapiti.formatOutput.
    destruct (paginationWindow output maxLines offset) as [[[w tr] n]|];
      [|discriminate].
    repeat split; eexists; reflexivity.
  - intros Hneg Hoff.
    assert (Hwin : paginationWindow output maxLines offset = None).
    { pose proof (len_Split_pos output) as Hpos. unfold paginationWindow.
      destruct (maxLines =? 0) eqn:E0; [apply Z.eqb_eq in E0; lia|].
      destruct (0 <? offset) eqn:E1; [apply Z.ltb_lt in E1; lia|].
      cbn [andb]. cbv iota.
      destruct (maxLines <? len (Split output)) eqn:E2;
        [|apply Z.ltb_ge in E2; lia].
      unfold slice.
      destruct (0 <=? maxLines) eqn:E3; [apply Z.leb_le in E3; lia|].
      reflexivity. }
    unfold applyPagination, nikto.formatOutput, wapiti.formatOutput.
    now rewrite Hwin.
Qed.

(** X23: the scanners are sent to the target the report names.  For a
    request of the aggregate scan, the parameters handed to the scanners
    never have an empty host or a zero port, so the defaults of the
    scanners themselves never apply: nikto is started on the host and
    port of the request (or localhost and 80), wapiti on the URL that
    the [Target:] line of the report shows, and the vhost of the request
    reaches both. *)
Theorem scanners_scan_the_reported_target
    (now : Z) (input : Input) (results : list scannerResult)
    (reportPath : string) :
  let params := scanParams input in
  nikto.scanArgs params
  = (["-host"; hostOf input; "-port"; Itoa (portOf input)]
     ++ (if String.eqb (Vhost input) "" then []
         else ["-vhost"; Vhost input]))%list /\
  wapiti.targetOf params = targetURL input /\
  wapiti.scanArgs params reportPath
  = (["-u"; targetURL input; "-f"; "txt"; "-o"; reportPath;
      "--flush-session"]
     ++ (if String.eqb (Vhost input) "" then []
         else ["-H"; ("Host: " ++ Vhost input)%string]))%list /\
  Contains (mergeResults L now (targetURL input) results)
           ("Target: " ++ wapiti.targetOf params ++ nl).
Proof.
  intros params.
  assert (Hh : String.eqb (hostOf input) "" = false).
  { unfold hostOf, defaultHost.
    destruct (String.eqb (Host input) "") eqn:E; [reflexivity|exact E]. }
  assert (Hp : (portOf input =? 0) = false).
  { unfold portOf, defaultPort.
    destruct (Port input =? 0) eqn:E; [reflexivity|exact E]. }
  assert (Ht : wapiti.targetOf params = targetURL input).
  { unfold wapiti.targetOf, targetURL, params, scanParams. cbn [tools.Host tools.Port].
    now rewrite Hh, Hp. }
  split; [|split; [exact Ht|split]].
  - unfold nikto.scanArgs, params, scanParams.
    cbn [tools.Host tools.Port tools.Vhost]. rewrite Hh, Hp.
    destruct (String.eqb (Vhost input) ""); reflexivity.
  - unfold wapiti.scanArgs. rewrite Ht. unfold params, scanParams.
    cbn [tools.Vhost].
    destruct (String.eqb (Vhost input) ""); reflexivity.
  - rewrite Ht. unfold mergeResults, reportHeader.
    apply Contains_app_l. rewrite <- !string_app_assoc.
    rewrite !string_app_assoc.
    do 6 apply Contains_app_r. apply Contains_refl.
Qed.

End Formatters.

Section FormattersExamples.
Import fullscan.

Lemma formatters_panic_only_on_negative_limits_witness :
  exists text, applyPagination threeLines 10 1 = Some text.
Proof.
  refine (proj1 (proj1 (formatters_panic_only_on_negative_limits
            concrete.asciiLib "http://localhost:80" threeLines 10 1) _ _)).
  - lia.
  - vm_compute. congruence.
Defined.

End FormattersExamples.
